(** * App Center command executor of vscode-react-native: a shallow embedding

    The development follows three source files:
    - [commandParams.ts]: the parameter records [DefaultApp] and
      [ICodePushReleaseParams];
    - the generated model [ListOKResponseItem] and its [mapper];
    - [AppCenterCommandExecutor] with the message table [ACStrings].

    The executor is JavaScript that starts editor prompts and registers
    callbacks on the promises they return.  Callback bodies are written
    in a state-and-exception monad [Js] over a [World] that holds the
    profile store, the chronological trace of calls made to the editor,
    to [Auth], to the status bar and to the logger, and the rejections of
    promises nobody holds.  What the outside decides (the answers to the
    prompts, the outcome of the network calls) comes from an [Env]. *)

From Stdlib Require Import String Ascii List Bool Arith ZArith Lia.
Import ListNotations.
Local Open Scope string_scope.

(** ** commandParams.ts *)

Record DefaultApp := mkDefaultApp {
  ownerName : string;
  appName : string;
  identifier : string
}.

(** [ICodePushReleaseParams extends IDefaultCommandParams]: [app],
    [deploymentName] and [updatedContentZipPath] are mandatory, the fields
    declared with [?] are optional ([None] is an absent field). *)
Record ICodePushReleaseParams := mkReleaseParams {
  app : DefaultApp;
  deploymentName : string;
  updatedContentZipPath : string;
  appVersion : option string;
  description : option string;
  isDisabled : option bool;
  isMandatory : option bool;
  label : option string;
  packageHash : option string;
  rollout : option Z
}.

(** ** ACStrings *)

Module ACStrings.
Definition UserMustSignIn := "You are signed out. Please login to App Center".
Definition SelectLoginTypeMsg :=
  "Please select the way you would like to login to AppCenter".
Definition PleaseProvideToken := "Please provide token to authenticate".
Definition PleaseLoginViaBrowser :=
  "Please login to AppCenter in the browser window we will open, then enter your token from the browser to vscode".
Definition UserLoggedOutMsg := "Successfully logged out from App Center".
Definition UserIsNotLoggedInMsg := "You are not logged in to App Center".
Definition LogoutPrompt := "Please execute logout to signoff from App Center".
Definition NoCodePushDetectedMsg :=
  "Please install React Native Code Push package to run this command!".
Definition NoCurrentAppSetMsg := "No current app is specified for App Center".
Definition PleaseProvideCurrentAppMsg := "Please click here to specify current app".
Definition ProvideCurrentAppPromptMsg := "Please specify existant current app".
Definition InvalidCurrentAppNameMsg := "Sorry, provided app name is invalid".
Definition FailedToExecuteLoginMsg := "Failed to execute login to App Center".

Definition YouAreLoggedInMsg (name : string) : string :=
  "You are logged in to App Center as " ++ name.
Definition YourCurrentAppMsg (appName : string) : string :=
  "Your current app is " ++ appName.
End ACStrings.

(** ** The generated model ListOKResponseItem *)

Module ListOKResponseItem.

(** The object literal [{ name: 'String' }] or
    [{ name: 'Composite', className, modelProperties }].  A JavaScript
    object keeps its keys in insertion order, so [modelProperties] is an
    association list. *)
Inductive MapperType :=
| Primitive (name : string)
| Composite (name : string) (className : string)
            (modelProperties : list (string * Mapper))
with Mapper :=
| mkMapper (required : bool) (serializedName : string) (type : MapperType).

Definition required (m : Mapper) : bool :=
  let 'mkMapper r _ _ := m in r.
Definition serializedName (m : Mapper) : string :=
  let 'mkMapper _ s _ := m in s.
Definition type (m : Mapper) : MapperType :=
  let 'mkMapper _ _ t := m in t.

Definition typeName (t : MapperType) : string :=
  match t with
  | Primitive n => n
  | Composite n _ _ => n
  end.
Definition className (t : MapperType) : option string :=
  match t with
  | Primitive _ => None
  | Composite _ c _ => Some c
  end.
Definition modelProperties (t : MapperType) : list (string * Mapper) :=
  match t with
  | Primitive _ => []
  | Composite _ _ ps => ps
  end.

(** Property access [obj[key]] on an object literal. *)
Fixpoint property (key : string) (ps : list (string * Mapper)) : option Mapper :=
  match ps with
  | [] => None
  | (k, m) :: rest => if String.eqb k key then Some m else property key rest
  end.

(** The class has an empty constructor and no members: an instance
    carries no data. *)
Inductive t : Set := new.

Definition mapper (self : t) : Mapper :=
  mkMapper false "ListOKResponseItem"
    (Composite "Composite" "ListOKResponseItem"
       [ ("displayName", mkMapper false "display_name" (Primitive "String"));
         ("name", mkMapper false "name" (Primitive "String"));
         ("origin", mkMapper false "origin" (Primitive "String")) ]).

(** A property is an optional String when it is not required and its
    type is the primitive named "String". *)
Definition optionalString (m : Mapper) : bool :=
  negb (required m) &&
  match type m with
  | Primitive n => String.eqb n "String"
  | Composite _ _ _ => false
  end.

End ListOKResponseItem.

(** ** JavaScript values and promises *)

(** A thrown value.  [Error] is [new Error(message)]; [TypeError] is what
    the engine throws on a member access on [undefined] (its message is
    engine specific and is not modelled). *)
Inductive JsError :=
| Error (message : string)
| TypeError.

(** A settled promise, also the outcome of running a function body. *)
Inductive Settled (A : Type) :=
| Fulfilled (a : A)
| Rejected (e : JsError).
Arguments Fulfilled {A} a.
Arguments Rejected {A} e.

(** [string | undefined]: [None] is [undefined]. *)
Definition truthy (v : option string) : bool :=
  match v with
  | None => false
  | Some s => negb (String.eqb s "")
  end.

(** [===] on [string | undefined]. *)
Definition strict_eq (a b : option string) : bool :=
  match a, b with
  | Some x, Some y => String.eqb x y
  | None, None => true
  | _, _ => false
  end.

(** A template literal hole [${v}]. *)
Definition template (v : option string) : string :=
  match v with
  | Some s => s
  | None => "undefined"
  end.

(** [String.prototype.toLowerCase], on text held as UTF-8 bytes.  The
    executor compares the result with an ASCII literal only, so what is
    modelled is every character whose lower case is an ASCII letter: the
    letters A to Z and U+212A KELVIN SIGN (the bytes E2 84 AA), which
    JavaScript lower-cases to k.  Every other character stays as it is;
    none of them lower-cases to an ASCII letter. *)
Definition lower_ascii (c : ascii) : ascii :=
  let n := nat_of_ascii c in
  if ((65 <=? n) && (n <=? 90))%nat then ascii_of_nat (n + 32) else c.

Definition kelvinSign : string :=
  String "226" (String "132" (String "170" EmptyString)).

Fixpoint toLowerCase (s : string) : string :=
  match s with
  | EmptyString => EmptyString
  | String c rest =>
      match rest with
      | String c2 (String c3 rest') =>
          if Ascii.eqb c "226" && Ascii.eqb c2 "132" && Ascii.eqb c3 "170"
          then String "k" (toLowerCase rest')
          else String (lower_ascii c) (toLowerCase rest)
      | _ => String (lower_ascii c) (toLowerCase rest)
      end
  end.

(** The answers that lower-case to "ok". *)
Definition okAnswers : list string :=
  [ "ok"; "oK"; "Ok"; "OK"; "o" ++ kelvinSign; "O" ++ kelvinSign ].

Module LogLevel.
(** The one level the executor uses. *)
Inductive t : Set := Error.
End LogLevel.


(** ** The profile and the extension manager *)

(** Modelled from the spec: the class [Profile] (appcenter/auth/profile)
    is not among the sources.  The executor reads [displayName] and reads
    and writes [defaultApp] (absent until a current app is chosen); the
    profile is "persisted to a profile file" by [save()]. *)
Record Profile := mkProfile {
  displayName : string;
  defaultApp : option DefaultApp
}.

(** Modelled from the spec: [getUser()] is not among the sources.  It
    hands out the one profile object of the logged-in user, or nothing;
    [user] is that object, which the executor mutates in place, and
    [profileFile] is what [save()] last wrote. *)
Record ProfileStore := mkStore {
  user : option Profile;
  profileFile : option Profile
}.

(** [AppCenterExtensionManager]: the executor reads [projectRootPath];
    its status-bar methods are recorded as events. *)
Record AppCenterExtensionManager := mkManager {
  projectRootPath : string
}.

(** What the outside decides during one command: the value each prompt
    resolves to ([None] when the user dismisses it), what the two [Auth]
    calls settle to and do to the profile store, and the two strings the
    login URL is built from ([SettingsHelper.getAppCenterLoginEndpoint()]
    and [qs.stringify({ hostname: os.hostname() })]). *)
Record Env := mkEnv {
  quickPick : option string;
  informationMessage : option string;
  inputBox : option string;
  doLogout : ProfileStore -> Settled unit * ProfileStore;
  doTokenLogin : string -> ProfileStore -> Settled (option Profile) * ProfileStore;
  loginEndpoint : string;
  hostnameQuery : string
}.

(** ** Concrete instances for running the model *)

(** Modelled from the spec: [ACUtils.toDefaultApp] (appCenterUtils) is not
    among the sources.  What is known of it is how the executor uses it:
    it turns an "owner/app" string into a [DefaultApp] or answers null,
    and [restoreCurrentApp] feeds it owner name, slash, app name of a
    stored app.  The model accepts exactly the strings with one slash
    between two non-empty names, and answers those names with the string
    itself as identifier; which characters a name may hold is stated
    nowhere, so every character but the slash is allowed.  The theorems
    of the executor hold for any parser; this one is used where a
    statement is about what the parser answers, and to run the
    executor. *)
Fixpoint hasSlash (s : string) : bool :=
  match s with
  | EmptyString => false
  | String c rest => Ascii.eqb c "/" || hasSlash rest
  end.

(** The text before the first slash and the text after it. *)
Fixpoint splitAtSlash (s : string) : option (string * string) :=
  match s with
  | EmptyString => None
  | String c rest =>
      if Ascii.eqb c "/" then Some (EmptyString, rest)
      else match splitAtSlash rest with
           | Some (before, after_) => Some (String c before, after_)
           | None => None
           end
  end.

(** A name is valid when it is not empty and holds no slash. *)
Definition validName (n : string) : bool :=
  negb (String.eqb n "") && negb (hasSlash n).

Definition splitOwnerApp (s : string) : option DefaultApp :=
  match splitAtSlash s with
  | Some (owner, name) =>
      if validName owner && validName name
      then Some (mkDefaultApp owner name (owner ++ "/" ++ name))
      else None
  | None => None
  end.

Definition alice : Profile := mkProfile "Alice" None.

(** An outside where the prompts are answered as given, logging out
    succeeds and forgets the user, and no token is accepted. *)
Definition answers (pick message input : option string) : Env :=
  mkEnv pick message input
    (fun _ => (Fulfilled tt, mkStore None None))
    (fun _ st => (Fulfilled None, st))
    "https://appcenter.ms/cli-login" "hostname=devbox".

(** An outside where every token is accepted for the profile [p], which
    [Auth] then keeps as the logged-in user. *)
Definition signsIn (p : Profile) (pick message input : option string) : Env :=
  mkEnv pick message input
    (fun _ => (Fulfilled tt, mkStore None None))
    (fun _ _ => (Fulfilled (Some p), mkStore (Some p) (Some p)))
    "https://appcenter.ms/cli-login" "hostname=devbox".

(** An outside where the network is down: both [Auth] calls reject and
    leave the profile store alone. *)
Definition offline (pick message input : option string) : Env :=
  mkEnv pick message input
    (fun st => (Rejected (Error "ENOTFOUND"), st))
    (fun _ st => (Rejected (Error "ENOTFOUND"), st))
    "https://appcenter.ms/cli-login" "hostname=devbox".

Section Executor.

(** The generated API client is passed through untouched. *)
Variable AppCenterClient : Type.

(** [ACUtils.toDefaultApp] is not among the sources.  On a string it
    answers a [DefaultApp] or [null]; [setCurrentApp] can also hand it
    [undefined] through a cast, and what it does then is left open. *)
Variable toDefaultApp : string -> option DefaultApp.
Variable toDefaultApp_undefined : Settled (option DefaultApp).

(** Every call the executor makes to the outside, in order.  The logger
    handed to [CodePushReleaseReact.exec] is the executor's own and is
    not recorded. *)
Inductive Event :=
| ShowQuickPick (items : list string) (placeHolder : string)
| ShowInformationMessage (message : string) (items : list string)
| ShowWarningMessage (message : string)
| ShowInputBox (prompt : string) (ignoreFocusOut : bool)
| OpenUrl (url : string)
| DoTokenLogin (token : string)
| DoLogout
| SetupNotAuthenticatedStatusBar
| SetuAuthenticatedStatusBar (name : string)
| SetCurrentAppStatusBar (appName : option string)
| Log (message : string) (level : LogLevel.t)
| ProfileSave (profile : Profile)
| CodePushReleaseReactExec (client : AppCenterClient)
                           (params : ICodePushReleaseParams).

Record World := mkWorld {
  store : ProfileStore;
  trace : list Event;
  unhandled : list JsError
}.

(** *** The monad of function bodies *)

Definition Js (A : Type) : Type := World -> Settled A * World.

Definition ret {A} (a : A) : Js A := fun w => (Fulfilled a, w).

Definition bind {A B} (m : Js A) (k : A -> Js B) : Js B :=
  fun w =>
    match m w with
    | (Fulfilled a, w') => k a w'
    | (Rejected e, w') => (Rejected e, w')
    end.

Notation "x <- m ;; k" := (bind m (fun x => k))
  (at level 61, m at next level, right associativity).
Notation "m ;; k" := (bind m (fun _ => k))
  (at level 61, right associativity).

Definition throw {A} (e : JsError) : Js A := fun w => (Rejected e, w).

(** [promise.catch(handler)]. *)
Definition catch {A} (m : Js A) (handler : JsError -> Js A) : Js A :=
  fun w =>
    match m w with
    | (Fulfilled a, w') => (Fulfilled a, w')
    | (Rejected e, w') => handler e w'
    end.

Definition emit (e : Event) : Js unit :=
  fun w => (Fulfilled tt, mkWorld (store w) (trace w ++ [e]) (unhandled w)).

(** A promise chain whose promise is dropped: the enclosing body goes on,
    and a rejection of the chain is left unhandled. *)
Definition detach {A} (m : Js A) : World -> World :=
  fun w =>
    match m w with
    | (Fulfilled _, w') => w'
    | (Rejected e, w') => mkWorld (store w') (trace w') (unhandled w' ++ [e])
    end.

Definition spawn {A} (m : Js A) : Js unit :=
  fun w => (Fulfilled tt, detach m w).

(** A call into [Auth]: it works on the profile store. *)
Definition auth {A} (f : ProfileStore -> Settled A * ProfileStore) : Js A :=
  fun w =>
    let (r, s) := f (store w) in
    (r, mkWorld s (trace w) (unhandled w)).

Definition getUser : Js (option Profile) :=
  fun w => (Fulfilled (user (store w)), w).

(** [profile.defaultApp = defaultApp] on the object [getUser()] returned. *)
Definition set_defaultApp (d : DefaultApp) : Js unit :=
  fun w =>
    let s := store w in
    let u := match user s with
             | Some p => Some (mkProfile (displayName p) (Some d))
             | None => None
             end in
    (Fulfilled tt, mkWorld (mkStore u (profileFile s)) (trace w) (unhandled w)).

(** [profile.save()]: the profile object goes to the profile file. *)
Definition save : Js unit :=
  fun w =>
    let s := store w in
    match user s with
    | Some p =>
        (Fulfilled tt,
         mkWorld (mkStore (user s) (Some p)) (trace w ++ [ProfileSave p]) (unhandled w))
    | None => (Fulfilled tt, w)
    end.

(** [ACUtils.toDefaultApp] as the executor calls it. *)
Definition toDefaultApp_js (v : option string) : Js (option DefaultApp) :=
  match v with
  | Some s => ret (toDefaultApp s)
  | None => fun w => (toDefaultApp_undefined, w)
  end.

(** *** appCenterConstants: the enum AppCenterLoginType *)

(** Modelled from the spec: the declaration of [AppCenterLoginType] is not
    among the sources; its members are the two the executor names.  A
    numeric TypeScript enum is an object with a number under each name and
    the name under each number; [Object.keys] lists the numeric keys
    first. *)
Inductive EnumValue :=
| EnumNumber (n : nat)
| EnumName (s : string).

Definition AppCenterLoginType : list (string * EnumValue) :=
  [ ("0", EnumName "Interactive"); ("1", EnumName "Token");
    ("Interactive", EnumNumber 0); ("Token", EnumNumber 1) ].

Definition typeof_number (v : EnumValue) : bool :=
  match v with
  | EnumNumber _ => true
  | EnumName _ => false
  end.

Definition AppCenterLoginType_Interactive : string := "0".
Definition AppCenterLoginType_Token : string := "1".

(** [AppCenterLoginType[k]] where a name is expected. *)
Fixpoint enum_name (k : string) (o : list (string * EnumValue)) : option string :=
  match o with
  | [] => None
  | (k', v) :: rest =>
      if String.eqb k' k
      then match v with EnumName s => Some s | EnumNumber _ => None end
      else enum_name k rest
  end.

(** *** What a command hands back *)

(** The promise a command returns, as it is when the command returns:
    [Q.resolve(void 0)] is fulfilled already; a promise derived with
    [.then] settles when the chain it ends has run. *)
Inductive Returned :=
| AlreadyResolved
| AwaitsChain.

(** A command runs synchronously up to its [return]; by then it has
    shown a prompt (or computed a promise) and registered the callbacks
    of [pending], which run once the outside has answered. *)
Record Invocation := mkInvocation {
  returned : Returned;
  pending : Env -> Js unit
}.

(** The whole of a command: its synchronous part, then its callbacks.
    The result is what the returned promise settles to. *)
Definition complete (command : Js Invocation) (env : Env) : Js unit :=
  fun w =>
    match command w with
    | (Rejected e, w1) => (Rejected e, w1)
    | (Fulfilled i, w1) =>
        match returned i with
        | AlreadyResolved => (Fulfilled tt, detach (pending i env) w1)
        | AwaitsChain => pending i env w1
        end
    end.

(** *** AppCenterCommandExecutor: the private methods *)

Definition saveCurrentApp (currentApp : option string) : Js bool :=
  defaultApp <- toDefaultApp_js currentApp ;;
  match defaultApp with
  | None =>
      emit (ShowWarningMessage ACStrings.InvalidCurrentAppNameMsg) ;;
      ret false
  | Some d =>
      profile <- getUser ;;
      match profile with
      | Some _ =>
          set_defaultApp d ;;
          save ;;
          ret true
      | None =>
          emit (ShowWarningMessage ACStrings.UserIsNotLoggedInMsg) ;;
          ret false
      end
  end.

(** The string [restoreCurrentApp] parses: owner and app name of the
    stored default app around a slash, or the empty string. *)
Definition currentAppString (u : Profile) : string :=
  match defaultApp u with
  | Some a => ownerName a ++ "/" ++ appName a
  | None => ""
  end.

Definition restoreCurrentApp : Js (option DefaultApp) :=
  user <- getUser ;;
  match user with
  | Some u =>
      match toDefaultApp (currentAppString u) with
      | Some d => ret (Some d)
      | None => ret None
      end
  | None => ret None
  end.

Definition loginWithToken (env : Env) (token : option string)
    (appCenterManager : AppCenterExtensionManager) : Js unit :=
  if negb (truthy token) then ret tt
  else
    emit (DoTokenLogin (template token)) ;;
    profile <- auth (doTokenLogin env (template token)) ;;
    match profile with
    | None =>
        emit (Log "Failed to fetch user info from server" LogLevel.Error) ;;
        emit (ShowWarningMessage ACStrings.FailedToExecuteLoginMsg) ;;
        ret tt
    | Some p =>
        emit (ShowInformationMessage
                (ACStrings.YouAreLoggedInMsg (displayName p)) []) ;;
        emit (SetuAuthenticatedStatusBar (displayName p)) ;;
        currentApp <- restoreCurrentApp ;;
        spawn (match currentApp with
               | Some a => emit (SetCurrentAppStatusBar (Some (identifier a)))
               | None => emit (SetCurrentAppStatusBar None)
               end)
    end.

(** *** login *)

Definition appCenterLoginOptions : list string :=
  map fst (filter (fun kv => typeof_number (snd kv)) AppCenterLoginType).

(** The callback on the "Please login via browser" message. *)
Definition login_onBrowserMessage (env : Env)
    (appCenterManager : AppCenterExtensionManager)
    (selection : option string) : Js unit :=
  match selection with
  | None => throw TypeError
  | Some s =>
      if String.eqb (toLowerCase s) "ok" then
        let loginUrl := loginEndpoint env ++ "?" ++ hostnameQuery env in
        emit (OpenUrl loginUrl) ;;
        emit (ShowInputBox ACStrings.PleaseProvideToken true) ;;
        spawn (loginWithToken env (inputBox env) appCenterManager)
      else ret tt
  end.

(** The callback on the quick-pick of login types. *)
Definition login_onQuickPick (env : Env)
    (appCenterManager : AppCenterExtensionManager)
    (loginType : option string) : Js unit :=
  if strict_eq loginType (enum_name AppCenterLoginType_Interactive AppCenterLoginType)
  then
    emit (ShowInformationMessage ACStrings.PleaseLoginViaBrowser ["OK"]) ;;
    spawn (login_onBrowserMessage env appCenterManager (informationMessage env))
  else if strict_eq loginType (enum_name AppCenterLoginType_Token AppCenterLoginType)
  then
    emit (ShowInputBox ACStrings.PleaseProvideToken true) ;;
    spawn (spawn (loginWithToken env (inputBox env) appCenterManager))
  else throw (Error "Unsupported login parameter!").

Definition login (appCenterManager : AppCenterExtensionManager) : Js Invocation :=
  emit (ShowQuickPick appCenterLoginOptions ACStrings.SelectLoginTypeMsg) ;;
  ret (mkInvocation AlreadyResolved
         (fun env => login_onQuickPick env appCenterManager (quickPick env))).

(** *** logout *)

Definition logoutOption : string := "Logout".
Definition logoutChoices : list string := [logoutOption].

Definition logout_onQuickPick (env : Env)
    (appCenterManager : AppCenterExtensionManager)
    (logoutType : option string) : Js unit :=
  if strict_eq logoutType (Some logoutOption) then
    catch
      (emit DoLogout ;;
       auth (doLogout env) ;;
       emit (ShowInformationMessage ACStrings.UserLoggedOutMsg []) ;;
       emit SetupNotAuthenticatedStatusBar ;;
       ret tt)
      (fun _ => emit (Log "An errro occured on logout" LogLevel.Error))
  else ret tt.

Definition logout (appCenterManager : AppCenterExtensionManager) : Js Invocation :=
  emit (ShowQuickPick logoutChoices ACStrings.LogoutPrompt) ;;
  ret (mkInvocation AlreadyResolved
         (fun env => logout_onQuickPick env appCenterManager (quickPick env))).

(** *** whoAmI, getCurrentApp, setCurrentApp, releaseReact *)

Definition whoAmI (profile : option Profile) : Js Invocation :=
  match profile with
  | Some p =>
      if truthy (Some (displayName p))
      then emit (ShowInformationMessage
                   (ACStrings.YouAreLoggedInMsg (displayName p)) [])
      else emit (ShowInformationMessage ACStrings.UserIsNotLoggedInMsg [])
  | None => emit (ShowInformationMessage ACStrings.UserIsNotLoggedInMsg [])
  end ;;
  ret (mkInvocation AlreadyResolved (fun _ => ret tt)).

Definition getCurrentApp : Js Invocation :=
  app <- restoreCurrentApp ;;
  ret (mkInvocation AlreadyResolved
         (fun _ =>
            match app with
            | Some a =>
                emit (ShowInformationMessage
                        (ACStrings.YourCurrentAppMsg (identifier a)) [])
            | None =>
                emit (ShowInformationMessage ACStrings.NoCurrentAppSetMsg [])
            end)).

(** The callback on the input box of [setCurrentApp]. *)
Definition setCurrentApp_onInput (appCenterManager : AppCenterExtensionManager)
    (currentApp : option string) : Js unit :=
  saved <- saveCurrentApp currentApp ;;
  spawn (if saved : bool then
           emit (ShowInformationMessage
                   (ACStrings.YourCurrentAppMsg (template currentApp)) []) ;;
           emit (SetCurrentAppStatusBar currentApp)
         else ret tt).

Definition setCurrentApp (appCenterManager : AppCenterExtensionManager)
    : Js Invocation :=
  emit (ShowInputBox ACStrings.ProvideCurrentAppPromptMsg true) ;;
  ret (mkInvocation AlreadyResolved
         (fun env => setCurrentApp_onInput appCenterManager (inputBox env))).

Definition releaseReact (client : AppCenterClient)
    (appCenterManager : AppCenterExtensionManager) : Js Invocation :=
  let targetBinaryVersion := "1.0.0" in
  let deploymentName := "Staging" in
  let bundleZipPath := projectRootPath appCenterManager in
  currentApp <- restoreCurrentApp ;;
  ret (mkInvocation AwaitsChain
         (fun _ =>
            match currentApp with
            | None => emit (ShowWarningMessage ACStrings.NoCurrentAppSetMsg)
            | Some a =>
                let codePushRelaseParams :=
                  mkReleaseParams a deploymentName bundleZipPath
                    (Some targetBinaryVersion) None None None None None None in
                emit (CodePushReleaseReactExec client codePushRelaseParams)
            end)).

(** *** Derived notions used in the statements *)

(** What [restoreCurrentApp] resolves to, read off the profile store. *)
Definition restoredApp (s : ProfileStore) : option DefaultApp :=
  match user s with
  | Some u => toDefaultApp (currentAppString u)
  | None => None
  end.

(** The default app in the profile file. *)
Definition persistedApp (s : ProfileStore) : option DefaultApp :=
  match profileFile s with
  | Some p => defaultApp p
  | None => None
  end.

Definition isStatusBarCall (e : Event) : bool :=
  match e with
  | SetupNotAuthenticatedStatusBar
  | SetuAuthenticatedStatusBar _
  | SetCurrentAppStatusBar _ => true
  | _ => false
  end.

Definition isProfileSave (e : Event) : bool :=
  match e with
  | ProfileSave _ => true
  | _ => false
  end.

(** The world after further calls to the outside. *)
Definition after (w : World) (es : list Event) : World :=
  mkWorld (store w) (trace w ++ es) (unhandled w).

Definition isAuthCall (e : Event) : bool :=
  match e with
  | DoLogout
  | DoTokenLogin _ => true
  | _ => false
  end.

(** The world [r] is reached from [w] by calls that include no
    [profile.save()] and at most one call to [Auth], a token login; the
    profile store is as it was when [Auth] was not called, and as that
    one call left it otherwise. *)
Definition viaTokenLogin (env : Env) (w r : World) : Prop :=
  exists es,
    trace r = (trace w ++ es)%list /\
    filter isProfileSave es = [] /\
    ((filter isAuthCall es = [] /\ store r = store w) \/
     exists t,
       filter isAuthCall es = [DoTokenLogin t] /\
       store r = snd (doTokenLogin env t (store w))).

(** ** Properties of the executor *)

Ltac run_js :=
  unfold complete, setCurrentApp_onInput, saveCurrentApp, toDefaultApp_js,
    set_defaultApp, save, getUser, after,
    bind, ret, emit, spawn, detach, throw, catch, auth;
  simpl.

(** [restoreCurrentApp] only reads: it resolves to [restoredApp] of the
    store and leaves the world as it was. *)
Lemma restoreCurrentApp_reads (w : World) :
  restoreCurrentApp w = (Fulfilled (restoredApp (store w)), w).
Proof.
  unfold restoreCurrentApp, restoredApp, getUser, bind, ret.
  destruct (user (store w)) as [u|]; [|reflexivity].
  destruct (toDefaultApp (currentAppString u)); reflexivity.
Qed.

(** What [saveCurrentApp] does on a string, by the two tests it makes. *)
Lemma saveCurrentApp_cases (s : string) (w : World) :
  saveCurrentApp (Some s) w =
    match toDefaultApp s, user (store w) with
    | None, _ =>
        (Fulfilled false,
         after w [ShowWarningMessage ACStrings.InvalidCurrentAppNameMsg])
    | Some d, Some p =>
        let p' := mkProfile (displayName p) (Some d) in
        (Fulfilled true,
         mkWorld (mkStore (Some p') (Some p')) (trace w ++ [ProfileSave p'])
                 (unhandled w))
    | Some d, None =>
        (Fulfilled false,
         after w [ShowWarningMessage ACStrings.UserIsNotLoggedInMsg])
    end.
Proof.
  run_js.
  destruct (toDefaultApp s) as [d|]; [|reflexivity].
  destruct (user (store w)) as [p|] eqn:Hu; simpl; [|reflexivity].
  rewrite Hu. reflexivity.
Qed.

(** C1: releaseReact calls CodePushReleaseReact.exec once, with the
    restored current app, appVersion "1.0.0", deploymentName "Staging",
    updatedContentZipPath the project root path and no other optional
    field, when a current app is restored; otherwise it shows the
    NoCurrentAppSetMsg warning and makes no release call.  Nothing else
    happens, whatever the outside answers. *)
Theorem C1_releaseReact_forwards_fixed_params
    (client : AppCenterClient) (appCenterManager : AppCenterExtensionManager)
    (env : Env) (w : World) :
  complete (releaseReact client appCenterManager) env w =
    (Fulfilled tt,
     after w
       [match restoredApp (store w) with
        | Some currentApp =>
            CodePushReleaseReactExec client
              {| app := currentApp;
                 deploymentName := "Staging";
                 updatedContentZipPath := projectRootPath appCenterManager;
                 appVersion := Some "1.0.0";
                 description := None;
                 isDisabled := None;
                 isMandatory := None;
                 label := None;
                 packageHash := None;
                 rollout := None |}
        | None => ShowWarningMessage ACStrings.NoCurrentAppSetMsg
        end]).
Proof.
  unfold complete, releaseReact, bind.
  rewrite restoreCurrentApp_reads. simpl.
  destruct (restoredApp (store w)); reflexivity.
Qed.

(** The callback of [setCurrentApp] follows [saveCurrentApp]: message
    and status bar after a save, nothing more otherwise. *)
Lemma setCurrentApp_onInput_cases
    (appCenterManager : AppCenterExtensionManager)
    (currentApp : option string) (w : World) :
  setCurrentApp_onInput appCenterManager currentApp w =
    match saveCurrentApp currentApp w with
    | (Fulfilled true, w1) =>
        (Fulfilled tt,
         after w1
           [ShowInformationMessage
              (ACStrings.YourCurrentAppMsg (template currentApp)) [];
            SetCurrentAppStatusBar currentApp])
    | (Fulfilled false, w1) => (Fulfilled tt, w1)
    | (Rejected e, w1) => (Rejected e, w1)
    end.
Proof.
  unfold setCurrentApp_onInput, bind at 1.
  destruct (saveCurrentApp currentApp w) as [[[|]|e] w1]; try reflexivity.
  unfold spawn, detach, bind, emit, after. simpl.
  rewrite <- app_assoc. reflexivity.
Qed.

Lemma setCurrentApp_starts
    (appCenterManager : AppCenterExtensionManager) (env : Env) (w : World) :
  complete (setCurrentApp appCenterManager) env w =
    (Fulfilled tt,
     detach (setCurrentApp_onInput appCenterManager (inputBox env))
       (after w [ShowInputBox ACStrings.ProvideCurrentAppPromptMsg true])).
Proof. reflexivity. Qed.

(** C2: for every string entered at the setCurrentApp input box, the
    selection is persisted exactly when it parses and a user profile
    exists.  Then saveCurrentApp stores the parsed app as
    profile.defaultApp, saves the profile and returns true, and
    setCurrentApp shows YourCurrentAppMsg and updates the current-app
    status bar.  Otherwise saveCurrentApp returns false after one warning
    (InvalidCurrentAppNameMsg or UserIsNotLoggedInMsg), the store is as
    before, and neither message nor status-bar update follows. *)
Theorem C2_setCurrentApp_persists_iff_valid_and_logged_in
    (appCenterManager : AppCenterExtensionManager) (s : string)
    (pick message : option string)
    (logout_ : ProfileStore -> Settled unit * ProfileStore)
    (tokenLogin : string -> ProfileStore -> Settled (option Profile) * ProfileStore)
    (endpoint query : string) (w : World) :
  let env := mkEnv pick message (Some s) logout_ tokenLogin endpoint query in
  let prompt := ShowInputBox ACStrings.ProvideCurrentAppPromptMsg true in
  match toDefaultApp s, user (store w) with
  | Some d, Some p =>
      let p' := mkProfile (displayName p) (Some d) in
      saveCurrentApp (Some s) w =
        (Fulfilled true,
         mkWorld (mkStore (Some p') (Some p')) (trace w ++ [ProfileSave p'])
                 (unhandled w)) /\
      complete (setCurrentApp appCenterManager) env w =
        (Fulfilled tt,
         mkWorld (mkStore (Some p') (Some p'))
           (trace w ++
              [prompt; ProfileSave p';
               ShowInformationMessage (ACStrings.YourCurrentAppMsg s) [];
               SetCurrentAppStatusBar (Some s)])
           (unhandled w))
  | None, _ =>
      saveCurrentApp (Some s) w =
        (Fulfilled false,
         after w [ShowWarningMessage ACStrings.InvalidCurrentAppNameMsg]) /\
      complete (setCurrentApp appCenterManager) env w =
        (Fulfilled tt,
         after w [prompt; ShowWarningMessage ACStrings.InvalidCurrentAppNameMsg])
  | Some _, None =>
      saveCurrentApp (Some s) w =
        (Fulfilled false,
         after w [ShowWarningMessage ACStrings.UserIsNotLoggedInMsg]) /\
      complete (setCurrentApp appCenterManager) env w =
        (Fulfilled tt,
         after w [prompt; ShowWarningMessage ACStrings.UserIsNotLoggedInMsg])
  end.
Proof.
  intros env prompt. rewrite (saveCurrentApp_cases s w).
  rewrite setCurrentApp_starts. subst env. simpl inputBox.
  unfold detach. rewrite setCurrentApp_onInput_cases, saveCurrentApp_cases.
  fold prompt. unfold after. simpl.
  destruct (toDefaultApp s) as [d|]; [destruct (user (store w)) as [p|]|];
    simpl; rewrite <- ?app_assoc; split; reflexivity.
Qed.

(** C9: whenever saveCurrentApp returns false the stored profile is left
    as it was: the profile object and the profile file are unchanged, and
    the one call made is a warning, so profile.save() is not called. *)
Theorem C9_saveCurrentApp_failure_leaves_profile
    (currentApp : option string) (w : World) :
  fst (saveCurrentApp currentApp w) = Fulfilled false ->
  let w' := snd (saveCurrentApp currentApp w) in
  store w' = store w /\
  (exists message, trace w' = (trace w ++ [ShowWarningMessage message])%list) /\
  filter isProfileSave (trace w') = filter isProfileSave (trace w).
Proof.
  intros Hfalse w'.
  assert (exists message, w' = after w [ShowWarningMessage message]) as [m Hw'].
  { subst w'. revert Hfalse. run_js.
    destruct currentApp as [s|]; simpl.
    - destruct (toDefaultApp s) as [d|]; simpl; [|eauto].
      destruct (user (store w)) as [p|] eqn:Hu; simpl; [|eauto].
      rewrite Hu. simpl. discriminate.
    - destruct toDefaultApp_undefined as [[d|]|e]; simpl; [| eauto | discriminate].
      destruct (user (store w)) as [p|] eqn:Hu; simpl; [|eauto].
      rewrite Hu. simpl. discriminate. }
  rewrite Hw'. unfold after. simpl. repeat split.
  - exists m. reflexivity.
  - rewrite filter_app. simpl. apply app_nil_r.
Qed.

(** After a successful save, [restoreCurrentApp] parses owner name,
    slash, app name of the app that went to the profile file. *)
Lemma restore_after_save (s : string) (d : DefaultApp) (w : World) :
  fst (saveCurrentApp (Some s) w) = Fulfilled true ->
  persistedApp (store (snd (saveCurrentApp (Some s) w))) = Some d ->
  toDefaultApp s = Some d /\
  fst (restoreCurrentApp (snd (saveCurrentApp (Some s) w)))
    = Fulfilled (toDefaultApp (ownerName d ++ "/" ++ appName d)).
Proof.
  intros Htrue Hsaved.
  rewrite restoreCurrentApp_reads. cbn [fst].
  rewrite saveCurrentApp_cases in Htrue, Hsaved |- *.
  destruct (toDefaultApp s) as [d'|] eqn:Hparse; [|discriminate].
  destruct (user (store w)) as [p|]; [|discriminate].
  simpl in Hsaved. injection Hsaved as ->.
  split; reflexivity.
Qed.


(** The enum lists its two names, and its two case labels are those
    names. *)
Lemma appCenterLoginOptions_names :
  appCenterLoginOptions = ["Interactive"; "Token"] /\
  enum_name AppCenterLoginType_Interactive AppCenterLoginType = Some "Interactive" /\
  enum_name AppCenterLoginType_Token AppCenterLoginType = Some "Token".
Proof. repeat split. Qed.

Lemma strict_eq_Some (v : option string) (s : string) :
  strict_eq v (Some s) = true <-> v = Some s.
Proof.
  destruct v as [x|]; simpl; [|split; discriminate].
  rewrite String.eqb_eq. split; congruence.
Qed.

Lemma strict_eq_Some_false (v : option string) (s : string) :
  v <> Some s -> strict_eq v (Some s) = false.
Proof.
  intros H. destruct (strict_eq v (Some s)) eqn:E; [|reflexivity].
  apply strict_eq_Some in E. contradiction.
Qed.

(** [toLowerCase] one character at a time: a Kelvin sign gives k, any
    other leading byte is lower-cased on its own. *)
Lemma toLowerCase_cons (c : ascii) (r : string) :
  (exists r', String c r = kelvinSign ++ r' /\
              toLowerCase (String c r) = String "k" (toLowerCase r')) \/
  toLowerCase (String c r) = String (lower_ascii c) (toLowerCase r).
Proof.
  destruct r as [|c2 [|c3 r']]; try (right; reflexivity).
  cbn [toLowerCase].
  destruct (Ascii.eqb_spec c "226") as [->|]; [|right; reflexivity].
  destruct (Ascii.eqb_spec c2 "132") as [->|]; [|right; reflexivity].
  destruct (Ascii.eqb_spec c3 "170") as [->|]; [|right; reflexivity].
  left. exists r'. split; reflexivity.
Qed.

Lemma toLowerCase_empty (s : string) : toLowerCase s = "" -> s = "".
Proof.
  destruct s as [|c r]; [reflexivity|].
  destruct (toLowerCase_cons c r) as [(r' & _ & ->)| ->]; discriminate.
Qed.

Lemma lower_ascii_o (c : ascii) : lower_ascii c = "o"%char -> c = "o"%char \/ c = "O"%char.
Proof.
  destruct c as [[] [] [] [] [] [] [] []]; vm_compute; intros H;
    try discriminate H; auto.
Qed.

Lemma lower_ascii_k (c : ascii) : lower_ascii c = "k"%char -> c = "k"%char \/ c = "K"%char.
Proof.
  destruct c as [[] [] [] [] [] [] [] []]; vm_compute; intros H;
    try discriminate H; auto.
Qed.

(** Exactly six strings lower-case to "ok": the four spellings in ASCII
    and the two that end in the Kelvin sign. *)
Lemma toLowerCase_ok (answer : string) :
  toLowerCase answer = "ok" <-> In answer okAnswers.
Proof.
  split.
  - intros H. destruct answer as [|c r]; [discriminate|].
    destruct (toLowerCase_cons c r) as [(r' & _ & E)|E]; rewrite E in H;
      [discriminate|].
    injection H as Hc Hr.
    assert (r = "k" \/ r = "K" \/ r = kelvinSign) as Hk.
    { destruct r as [|c2 r2]; [discriminate|].
      destruct (toLowerCase_cons c2 r2) as [(r' & Hshape & E2)|E2];
        rewrite E2 in Hr.
      - injection Hr as Hr. apply toLowerCase_empty in Hr. subst r'.
        right. right. rewrite Hshape. reflexivity.
      - injection Hr as Hc2 Hr2. apply toLowerCase_empty in Hr2. subst r2.
        destruct (lower_ascii_k c2 Hc2) as [->| ->]; auto. }
    destruct (lower_ascii_o c Hc) as [->| ->];
      destruct Hk as [->|[->| ->]]; simpl; auto 10.
  - intros H. repeat (destruct H as [<-|H]; [reflexivity|]). destruct H.
Qed.

(** C3: login shows a quick-pick of the AppCenterLoginType names and
    branches on the selection.  Token prompts for a token and passes it
    to loginWithToken.  Interactive shows the browser message with the
    item "OK"; on an answer that is "ok" up to case (the answers that
    lower-case to "ok", the button's "OK" among them) it opens the login
    URL, prompts for a token and passes it to loginWithToken, and on any
    other answer it opens nothing.  Any other selection, dismissal
    included, raises the error "Unsupported login parameter!". *)
Theorem C3_login_branches_on_selection
    (appCenterManager : AppCenterExtensionManager) (env : Env) (w : World) :
  (exists i,
      login appCenterManager w =
        (Fulfilled i,
         after w [ShowQuickPick ["Interactive"; "Token"]
                    ACStrings.SelectLoginTypeMsg]) /\
      pending i env =
        login_onQuickPick env appCenterManager (quickPick env)) /\
  login_onQuickPick env appCenterManager (Some "Token") w =
    (Fulfilled tt,
     detach (loginWithToken env (inputBox env) appCenterManager)
       (after w [ShowInputBox ACStrings.PleaseProvideToken true])) /\
  login_onQuickPick env appCenterManager (Some "Interactive") w =
    (Fulfilled tt,
     detach (login_onBrowserMessage env appCenterManager (informationMessage env))
       (after w [ShowInformationMessage ACStrings.PleaseLoginViaBrowser ["OK"]])) /\
  (forall answer : string,
      In answer ["ok"; "oK"; "Ok"; "OK"; "o" ++ kelvinSign; "O" ++ kelvinSign] ->
      login_onBrowserMessage env appCenterManager (Some answer) w =
        (Fulfilled tt,
         detach (loginWithToken env (inputBox env) appCenterManager)
           (after w [OpenUrl (loginEndpoint env ++ "?" ++ hostnameQuery env);
                     ShowInputBox ACStrings.PleaseProvideToken true]))) /\
  (forall answer : string,
      ~ In answer ["ok"; "oK"; "Ok"; "OK"; "o" ++ kelvinSign; "O" ++ kelvinSign] ->
      login_onBrowserMessage env appCenterManager (Some answer) w =
        (Fulfilled tt, w)) /\
  (forall answer : string,
      login_onBrowserMessage env appCenterManager (Some answer) w =
        if String.eqb (toLowerCase answer) "ok"
        then
          (Fulfilled tt,
           detach (loginWithToken env (inputBox env) appCenterManager)
             (after w [OpenUrl (loginEndpoint env ++ "?" ++ hostnameQuery env);
                       ShowInputBox ACStrings.PleaseProvideToken true]))
        else (Fulfilled tt, w)) /\
  trace (snd (login_onBrowserMessage env appCenterManager None w)) = trace w /\
  (forall loginType : option string,
      loginType <> Some "Interactive" ->
      loginType <> Some "Token" ->
      login_onQuickPick env appCenterManager loginType w =
        (Rejected (Error "Unsupported login parameter!"), w)) /\
  login_onQuickPick env appCenterManager None w =
    (Rejected (Error "Unsupported login parameter!"), w).
Proof.
  assert (forall answer : string,
             login_onBrowserMessage env appCenterManager (Some answer) w =
               if String.eqb (toLowerCase answer) "ok"
               then
                 (Fulfilled tt,
                  detach (loginWithToken env (inputBox env) appCenterManager)
                    (after w [OpenUrl (loginEndpoint env ++ "?" ++ hostnameQuery env);
                              ShowInputBox ACStrings.PleaseProvideToken true]))
               else (Fulfilled tt, w)) as Hanswer.
  { intros answer. unfold login_onBrowserMessage.
    destruct (String.eqb (toLowerCase answer) "ok"); [|reflexivity].
    unfold bind, emit, spawn, after. simpl.
    rewrite <- app_assoc. reflexivity. }
  split; [eexists; split; reflexivity|].
  split; [reflexivity|]. split; [reflexivity|].
  split; [|split; [|split; [exact Hanswer|]]].
  - intros answer Hin. rewrite Hanswer.
    apply toLowerCase_ok in Hin. rewrite Hin. reflexivity.
  - intros answer Hout. rewrite Hanswer.
    destruct (String.eqb (toLowerCase answer) "ok") eqn:E; [|reflexivity].
    apply String.eqb_eq, toLowerCase_ok in E. contradiction.
  - split; [reflexivity|]. split; [|reflexivity].
    intros loginType HI HT. unfold login_onQuickPick.
    destruct appCenterLoginOptions_names as (_ & -> & ->).
    rewrite (strict_eq_Some_false _ _ HI), (strict_eq_Some_false _ _ HT).
    reflexivity.
Qed.

(** C6: logout shows a picklist with the single choice "Logout".  Only
    when "Logout" is chosen it calls Auth.doLogout; on success it shows
    UserLoggedOutMsg and switches the status bar to not authenticated; on
    failure it logs an error and shows no message; on any other
    selection, dismissal included, it does nothing more. *)
Theorem C6_logout_branches_on_selection
    (appCenterManager : AppCenterExtensionManager) (env : Env) (w : World) :
  let shown := after w [ShowQuickPick ["Logout"] ACStrings.LogoutPrompt] in
  (forall st : ProfileStore,
      quickPick env = Some "Logout" ->
      doLogout env (store w) = (Fulfilled tt, st) ->
      complete (logout appCenterManager) env w =
        (Fulfilled tt,
         mkWorld st
           (trace shown ++
              [DoLogout;
               ShowInformationMessage ACStrings.UserLoggedOutMsg [];
               SetupNotAuthenticatedStatusBar])
           (unhandled w))) /\
  (forall (e : JsError) (st : ProfileStore),
      quickPick env = Some "Logout" ->
      doLogout env (store w) = (Rejected e, st) ->
      complete (logout appCenterManager) env w =
        (Fulfilled tt,
         mkWorld st
           (trace shown ++
              [DoLogout; Log "An errro occured on logout" LogLevel.Error])
           (unhandled w))) /\
  (quickPick env <> Some "Logout" ->
   complete (logout appCenterManager) env w = (Fulfilled tt, shown)).
Proof.
  intros shown. subst shown.
  assert (complete (logout appCenterManager) env w =
            (Fulfilled tt,
             detach (logout_onQuickPick env appCenterManager (quickPick env))
               (after w [ShowQuickPick ["Logout"] ACStrings.LogoutPrompt])))
    as Hrun by reflexivity.
  rewrite Hrun. unfold logout_onQuickPick, logoutOption, detach, after.
  repeat split.
  - intros st Hpick Hout. rewrite Hpick. cbn [strict_eq].
    replace ("Logout" =? "Logout") with true by reflexivity.
    unfold catch, bind, emit, auth, ret. cbn [store trace unhandled].
    rewrite Hout. cbn [store trace unhandled].
    rewrite <- !app_assoc. reflexivity.
  - intros e st Hpick Hout. rewrite Hpick. cbn [strict_eq].
    replace ("Logout" =? "Logout") with true by reflexivity.
    unfold catch, bind, emit, auth, ret. cbn [store trace unhandled].
    rewrite Hout. cbn [store trace unhandled].
    rewrite <- !app_assoc. reflexivity.
  - intros Hpick. rewrite (strict_eq_Some_false _ _ Hpick). reflexivity.
Qed.

(** C7: each public command (login, logout, whoAmI, getCurrentApp,
    setCurrentApp) returns, before any prompt is answered, a promise that
    is already resolved with void; whatever the outside then answers, that
    promise is fulfilled and never rejected. *)
Theorem C7_public_commands_return_resolved_promise
    (appCenterManager : AppCenterExtensionManager) (profile : option Profile)
    (env : Env) (w : World) :
  Forall
    (fun command : Js Invocation =>
       (exists i w1,
           command w = (Fulfilled i, w1) /\ returned i = AlreadyResolved) /\
       fst (complete command env w) = Fulfilled tt)
    [ login appCenterManager;
      logout appCenterManager;
      whoAmI profile;
      getCurrentApp;
      setCurrentApp appCenterManager ].
Proof.
  repeat constructor.
  - eexists _, _. split; reflexivity.
  - eexists _, _. split; reflexivity.
  - unfold whoAmI.
    destruct profile as [p|]; [destruct (truthy (Some (displayName p)))|];
      eexists _, _; split; reflexivity.
  - unfold complete, whoAmI.
    destruct profile as [p|]; [destruct (truthy (Some (displayName p)))|];
      reflexivity.
  - unfold getCurrentApp, bind. rewrite restoreCurrentApp_reads.
    eexists _, _. split; reflexivity.
  - unfold complete, getCurrentApp, bind. rewrite restoreCurrentApp_reads.
    reflexivity.
  - eexists _, _. split; reflexivity.
Qed.

(** C8: loginWithToken does nothing for a missing token: on undefined and
    on the empty string it returns at once, with no call to
    Auth.doTokenLogin, no message and no status-bar call.  When
    doTokenLogin yields no profile it logs the failure, shows
    FailedToExecuteLoginMsg and makes no status-bar call. *)
Theorem C8_loginWithToken_missing_token_and_no_profile
    (env : Env) (appCenterManager : AppCenterExtensionManager) (w : World) :
  loginWithToken env None appCenterManager w = (Fulfilled tt, w) /\
  loginWithToken env (Some "") appCenterManager w = (Fulfilled tt, w) /\
  (forall (token : string) (st : ProfileStore),
      token <> "" ->
      doTokenLogin env token (store w) = (Fulfilled None, st) ->
      let w' := snd (loginWithToken env (Some token) appCenterManager w) in
      loginWithToken env (Some token) appCenterManager w =
        (Fulfilled tt,
         mkWorld st
           (trace w ++
              [DoTokenLogin token;
               Log "Failed to fetch user info from server" LogLevel.Error;
               ShowWarningMessage ACStrings.FailedToExecuteLoginMsg])
           (unhandled w)) /\
      filter isStatusBarCall (trace w') = filter isStatusBarCall (trace w)).
Proof.
  split; [reflexivity|]. split; [reflexivity|].
  intros token st Hne Hlogin w'.
  assert (loginWithToken env (Some token) appCenterManager w =
            (Fulfilled tt,
             mkWorld st
               (trace w ++
                  [DoTokenLogin token;
                   Log "Failed to fetch user info from server" LogLevel.Error;
                   ShowWarningMessage ACStrings.FailedToExecuteLoginMsg])
               (unhandled w))) as Hrun.
  { unfold loginWithToken. cbn [truthy template].
    destruct (String.eqb token "") eqn:E;
      [apply String.eqb_eq in E; contradiction|].
    cbn [negb]. unfold bind, emit, auth, ret. cbn [store trace unhandled].
    rewrite Hlogin. cbn [store trace unhandled].
    rewrite <- !app_assoc. reflexivity. }
  split; [exact Hrun|].
  subst w'. rewrite Hrun. cbn [snd trace].
  rewrite filter_app. simpl. apply app_nil_r.
Qed.

(** C10, at the input where it fails: when the "Please login via browser"
    message is dismissed the selection is undefined, and the handler's
    [selection.toLowerCase()] throws a TypeError.  The handler's promise
    is rejected and nobody handles it; no browser is opened and no token
    is asked for.  On every string the handler does not fault. *)
Theorem C10_browser_message_handler_faults_on_dismissal
    (appCenterManager : AppCenterExtensionManager) (env : Env) (w : World) :
  login_onBrowserMessage env appCenterManager None w = (Rejected TypeError, w) /\
  login_onQuickPick env appCenterManager (Some "Interactive") w =
    (Fulfilled tt,
     detach (login_onBrowserMessage env appCenterManager (informationMessage env))
       (after w [ShowInformationMessage ACStrings.PleaseLoginViaBrowser ["OK"]])) /\
  detach (login_onBrowserMessage env appCenterManager None)
    (after w [ShowInformationMessage ACStrings.PleaseLoginViaBrowser ["OK"]]) =
    mkWorld (store w)
      (trace w ++ [ShowInformationMessage ACStrings.PleaseLoginViaBrowser ["OK"]])
      (unhandled w ++ [TypeError]) /\
  (forall answer : string,
      exists w',
        login_onBrowserMessage env appCenterManager (Some answer) w =
          (Fulfilled tt, w')).
Proof.
  repeat split.
  intros answer. unfold login_onBrowserMessage.
  destruct (String.eqb (toLowerCase answer) "ok"); eexists; reflexivity.
Qed.

(** ** Further properties of the executor *)

(** What [loginWithToken] does, by the token's truthiness and by what
    [Auth.doTokenLogin] settles to. *)
Lemma loginWithToken_cases
    (env : Env) (token : option string)
    (appCenterManager : AppCenterExtensionManager) (w : World) :
  loginWithToken env token appCenterManager w =
    if negb (truthy token) then (Fulfilled tt, w)
    else
      let called := DoTokenLogin (template token) in
      match doTokenLogin env (template token) (store w) with
      | (Rejected e, st) =>
          (Rejected e, mkWorld st (trace w ++ [called]) (unhandled w))
      | (Fulfilled None, st) =>
          (Fulfilled tt,
           mkWorld st
             (trace w ++
                [called;
                 Log "Failed to fetch user info from server" LogLevel.Error;
                 ShowWarningMessage ACStrings.FailedToExecuteLoginMsg])
             (unhandled w))
      | (Fulfilled (Some p), st) =>
          (Fulfilled tt,
           mkWorld st
             (trace w ++
                [called;
                 ShowInformationMessage
                   (ACStrings.YouAreLoggedInMsg (displayName p)) [];
                 SetuAuthenticatedStatusBar (displayName p);
                 SetCurrentAppStatusBar
                   (option_map identifier (restoredApp st))])
             (unhandled w))
      end.
Proof.
  unfold loginWithToken.
  destruct (negb (truthy token)); [reflexivity|].
  unfold bind at 1. unfold emit at 1. unfold bind at 1. unfold auth at 1.
  cbn [store trace unhandled].
  destruct (doTokenLogin env (template token) (store w)) as [[[p|]|e] st].
  - unfold bind at 1. unfold emit at 1. unfold bind at 1. unfold emit at 1.
    cbn [store trace unhandled].
    unfold bind at 1. rewrite restoreCurrentApp_reads. cbn [store].
    unfold spawn, detach.
    destruct (restoredApp st); unfold emit; cbn [store trace unhandled option_map];
      rewrite <- !app_assoc; reflexivity.
  - unfold bind, emit, ret. cbn [store trace unhandled].
    rewrite <- !app_assoc. reflexivity.
  - reflexivity.
Qed.

Lemma append_inj_l (p a b : string) : p ++ a = p ++ b -> a = b.
Proof.
  induction p as [|c p IH]; simpl; intros H; [exact H|].
  injection H as H. auto.
Qed.

Lemma YouAreLoggedInMsg_is_not_logged_out (name : string) :
  ACStrings.YouAreLoggedInMsg name <> ACStrings.UserIsNotLoggedInMsg.
Proof.
  unfold ACStrings.YouAreLoggedInMsg, ACStrings.UserIsNotLoggedInMsg.
  simpl. congruence.
Qed.

(** X2: The two parametrised messages determine the name they carry, and
    neither can be mistaken for the fixed message of the opposite
    outcome, whatever the name. *)
Theorem ACStrings_messages_distinguish (a b : string) :
  (ACStrings.YouAreLoggedInMsg a = ACStrings.YouAreLoggedInMsg b <-> a = b) /\
  (ACStrings.YourCurrentAppMsg a = ACStrings.YourCurrentAppMsg b <-> a = b) /\
  ACStrings.YouAreLoggedInMsg a <> ACStrings.UserIsNotLoggedInMsg /\
  ACStrings.YourCurrentAppMsg a <> ACStrings.NoCurrentAppSetMsg.
Proof.
  unfold ACStrings.YouAreLoggedInMsg, ACStrings.YourCurrentAppMsg.
  repeat split; try (intros ->; reflexivity); try apply append_inj_l.
  - apply YouAreLoggedInMsg_is_not_logged_out.
  - unfold ACStrings.NoCurrentAppSetMsg. simpl. congruence.
Qed.

(** X1: whoAmI shows exactly one information message and does nothing else;
    the message is the not-logged-in one exactly when the profile is
    missing or its display name is empty, and otherwise names the
    profile. *)
Theorem whoAmI_reports_login_state
    (profile : option Profile) (env : Env) (w : World) :
  exists message,
    complete (whoAmI profile) env w =
      (Fulfilled tt, after w [ShowInformationMessage message []]) /\
    (message = ACStrings.UserIsNotLoggedInMsg <->
     profile = None \/ exists p, profile = Some p /\ displayName p = "") /\
    (message <> ACStrings.UserIsNotLoggedInMsg ->
     exists p, profile = Some p /\
               message = ACStrings.YouAreLoggedInMsg (displayName p)).
Proof.
  destruct profile as [p|].
  - destruct (String.eqb (displayName p) "") eqn:E.
    + exists ACStrings.UserIsNotLoggedInMsg. unfold complete, whoAmI, truthy.
      rewrite E. repeat split; try reflexivity.
      * intros _. right. exists p. split; [reflexivity|].
        now apply String.eqb_eq.
      * intros H. contradiction.
    + exists (ACStrings.YouAreLoggedInMsg (displayName p)).
      unfold complete, whoAmI, truthy. rewrite E. repeat split.
      * intros H.
        now apply YouAreLoggedInMsg_is_not_logged_out in H.
      * intros [H|[p' [[= <-] H]]]; [discriminate|].
        apply String.eqb_neq in E. contradiction.
      * intros _. exists p. split; reflexivity.
  - exists ACStrings.UserIsNotLoggedInMsg. repeat split; auto.
    intros H. contradiction.
Qed.

(** [getCurrentApp] reads the profile when it is called and then shows
    one message. *)
Lemma getCurrentApp_runs (env : Env) (w : World) :
  complete getCurrentApp env w =
    (Fulfilled tt,
     after w
       [ShowInformationMessage
          match restoredApp (store w) with
          | Some a => ACStrings.YourCurrentAppMsg (identifier a)
          | None => ACStrings.NoCurrentAppSetMsg
          end []]).
Proof.
  unfold complete, getCurrentApp, bind. rewrite restoreCurrentApp_reads.
  cbn [returned pending ret]. unfold detach.
  destruct (restoredApp (store w)); reflexivity.
Qed.

(** After a successful save, what [restoreCurrentApp] will read. *)
Lemma restoredApp_after_save (s : string) (d : DefaultApp) (w : World) :
  fst (saveCurrentApp (Some s) w) = Fulfilled true ->
  persistedApp (store (snd (saveCurrentApp (Some s) w))) = Some d ->
  restoredApp (store (snd (saveCurrentApp (Some s) w)))
    = toDefaultApp (ownerName d ++ "/" ++ appName d).
Proof.
  intros Htrue Hsaved.
  destruct (restore_after_save s d w Htrue Hsaved) as [_ H].
  rewrite restoreCurrentApp_reads in H. cbn [fst] in H.
  now injection H.
Qed.

(** X3: Setting then asking: after saveCurrentApp has succeeded on a string
    that is owner name, slash, app name of the saved app, getCurrentApp
    shows YourCurrentAppMsg with the identifier of that app and leaves the
    profile as saved. *)
Theorem getCurrentApp_after_save
    (s : string) (d : DefaultApp) (env : Env) (w : World) :
  fst (saveCurrentApp (Some s) w) = Fulfilled true ->
  persistedApp (store (snd (saveCurrentApp (Some s) w))) = Some d ->
  s = ownerName d ++ "/" ++ appName d ->
  let saved := snd (saveCurrentApp (Some s) w) in
  complete getCurrentApp env saved =
    (Fulfilled tt,
     after saved
       [ShowInformationMessage (ACStrings.YourCurrentAppMsg (identifier d)) []]).
Proof.
  intros Htrue Hsaved Hform saved.
  rewrite getCurrentApp_runs. subst saved.
  rewrite (restoredApp_after_save s d w Htrue Hsaved), <- Hform.
  destruct (restore_after_save s d w Htrue Hsaved) as [-> _]. reflexivity.
Qed.

(** X4: Setting then releasing: after saveCurrentApp has succeeded on such a
    string, releaseReact releases the app that was saved, to Staging, as
    version 1.0.0, from the project root. *)
Theorem releaseReact_after_save
    (client : AppCenterClient) (appCenterManager : AppCenterExtensionManager)
    (s : string) (d : DefaultApp) (env : Env) (w : World) :
  fst (saveCurrentApp (Some s) w) = Fulfilled true ->
  persistedApp (store (snd (saveCurrentApp (Some s) w))) = Some d ->
  s = ownerName d ++ "/" ++ appName d ->
  let saved := snd (saveCurrentApp (Some s) w) in
  complete (releaseReact client appCenterManager) env saved =
    (Fulfilled tt,
     after saved
       [CodePushReleaseReactExec client
          (mkReleaseParams d "Staging" (projectRootPath appCenterManager)
             (Some "1.0.0") None None None None None None)]).
Proof.
  intros Htrue Hsaved Hform saved.
  unfold complete, releaseReact, bind.
  rewrite restoreCurrentApp_reads. cbn [returned pending ret]. subst saved.
  rewrite (restoredApp_after_save s d w Htrue Hsaved), <- Hform.
  destruct (restore_after_save s d w Htrue Hsaved) as [-> _]. reflexivity.
Qed.

(** X5: Without a logged-in user no command finds a current app, whatever
    the parser accepts: getCurrentApp shows NoCurrentAppSetMsg,
    releaseReact only warns and makes no release call, and
    saveCurrentApp refuses every entry and leaves the store alone. *)
Theorem logged_out_has_no_current_app
    (client : AppCenterClient) (appCenterManager : AppCenterExtensionManager)
    (env : Env) (w : World) :
  user (store w) = None ->
  complete getCurrentApp env w =
    (Fulfilled tt,
     after w [ShowInformationMessage ACStrings.NoCurrentAppSetMsg []]) /\
  complete (releaseReact client appCenterManager) env w =
    (Fulfilled tt, after w [ShowWarningMessage ACStrings.NoCurrentAppSetMsg]) /\
  forall s : string,
    fst (saveCurrentApp (Some s) w) = Fulfilled false /\
    store (snd (saveCurrentApp (Some s) w)) = store w.
Proof.
  intros Hnone. repeat split.
  - rewrite getCurrentApp_runs. unfold restoredApp. now rewrite Hnone.
  - unfold complete, releaseReact, bind. rewrite restoreCurrentApp_reads.
    unfold restoredApp. now rewrite Hnone.
  - rewrite saveCurrentApp_cases, Hnone.
    destruct (toDefaultApp s); reflexivity.
  - rewrite saveCurrentApp_cases, Hnone.
    destruct (toDefaultApp s); reflexivity.
Qed.

(** The steps of [login], one lemma each. *)
Lemma login_runs
    (appCenterManager : AppCenterExtensionManager) (env : Env) (w : World) :
  complete (login appCenterManager) env w =
    (Fulfilled tt,
     detach (login_onQuickPick env appCenterManager (quickPick env))
       (after w [ShowQuickPick ["Interactive"; "Token"]
                   ACStrings.SelectLoginTypeMsg])).
Proof. reflexivity. Qed.

Lemma login_onQuickPick_Token
    (appCenterManager : AppCenterExtensionManager) (env : Env) (w : World) :
  login_onQuickPick env appCenterManager (Some "Token") w =
    (Fulfilled tt,
     detach (loginWithToken env (inputBox env) appCenterManager)
       (after w [ShowInputBox ACStrings.PleaseProvideToken true])).
Proof. reflexivity. Qed.

Lemma login_onQuickPick_Interactive
    (appCenterManager : AppCenterExtensionManager) (env : Env) (w : World) :
  login_onQuickPick env appCenterManager (Some "Interactive") w =
    (Fulfilled tt,
     detach (login_onBrowserMessage env appCenterManager (informationMessage env))
       (after w [ShowInformationMessage ACStrings.PleaseLoginViaBrowser ["OK"]])).
Proof. reflexivity. Qed.

Lemma login_onBrowserMessage_ok
    (appCenterManager : AppCenterExtensionManager) (env : Env)
    (answer : string) (w : World) :
  toLowerCase answer = "ok" ->
  login_onBrowserMessage env appCenterManager (Some answer) w =
    (Fulfilled tt,
     detach (loginWithToken env (inputBox env) appCenterManager)
       (after w [OpenUrl (loginEndpoint env ++ "?" ++ hostnameQuery env);
                 ShowInputBox ACStrings.PleaseProvideToken true])).
Proof.
  intros Hok. unfold login_onBrowserMessage. rewrite Hok.
  replace ("ok" =? "ok") with true by reflexivity.
  unfold bind, emit, spawn, after. simpl.
  rewrite <- app_assoc. reflexivity.
Qed.

(** X6: A successful token login: loginWithToken greets the user by the
    display name of the profile doTokenLogin resolved to, sets the
    authenticated status bar to that name, and sets the current-app
    status bar from the profile store as Auth left it (the identifier of
    the app restored from it, or null). *)
Theorem loginWithToken_success
    (env : Env) (appCenterManager : AppCenterExtensionManager)
    (token : string) (p : Profile) (st : ProfileStore) (w : World) :
  token <> "" ->
  doTokenLogin env token (store w) = (Fulfilled (Some p), st) ->
  loginWithToken env (Some token) appCenterManager w =
    (Fulfilled tt,
     mkWorld st
       (trace w ++
          [DoTokenLogin token;
           ShowInformationMessage
             (ACStrings.YouAreLoggedInMsg (displayName p)) [];
           SetuAuthenticatedStatusBar (displayName p);
           SetCurrentAppStatusBar (option_map identifier (restoredApp st))])
       (unhandled w)).
Proof.
  intros Hne Hlogin. rewrite loginWithToken_cases. cbn [truthy template].
  apply String.eqb_neq in Hne. rewrite Hne. cbn [negb].
  rewrite Hlogin. reflexivity.
Qed.

(** X7: Login then asking: the current app that a successful loginWithToken
    puts in the status bar is the one getCurrentApp reports right
    after. *)
Theorem getCurrentApp_after_login
    (env env' : Env) (appCenterManager : AppCenterExtensionManager)
    (token : string) (p : Profile) (st : ProfileStore) (w : World) :
  token <> "" ->
  doTokenLogin env token (store w) = (Fulfilled (Some p), st) ->
  let w' := snd (loginWithToken env (Some token) appCenterManager w) in
  exists shown,
    last (trace w') DoLogout = SetCurrentAppStatusBar shown /\
    complete getCurrentApp env' w' =
      (Fulfilled tt,
       after w'
         [ShowInformationMessage
            match shown with
            | Some name => ACStrings.YourCurrentAppMsg name
            | None => ACStrings.NoCurrentAppSetMsg
            end []]).
Proof.
  intros Hne Hlogin w'. subst w'.
  rewrite loginWithToken_cases. cbn [truthy template].
  apply String.eqb_neq in Hne. rewrite Hne. cbn [negb].
  rewrite Hlogin. cbn [snd]. exists (option_map identifier (restoredApp st)). split.
  - cbn [trace].
    match goal with
    | |- last (?l ++ [?a; ?b; ?c; ?d]) _ = _ =>
        replace (l ++ [a; b; c; d])%list with ((l ++ [a; b; c]) ++ [d])%list
          by (rewrite <- app_assoc; reflexivity)
    end.
    apply last_last.
  - rewrite getCurrentApp_runs. cbn [store].
    destruct (restoredApp st); reflexivity.
Qed.

(** X8: A token login that fails on the network is silent: when doTokenLogin
    rejects, loginWithToken rejects with the same error after the one
    call, with no message, log entry or status-bar call; in the Token
    flow of login the returned promise is fulfilled all the same and the
    error is left unhandled. *)
Theorem loginWithToken_rejection_is_silent
    (appCenterManager : AppCenterExtensionManager)
    (message : option string) (token : string)
    (logout_ : ProfileStore -> Settled unit * ProfileStore)
    (tokenLogin : string -> ProfileStore -> Settled (option Profile) * ProfileStore)
    (endpoint query : string)
    (e : JsError) (st : ProfileStore) (w : World) :
  let env := mkEnv (Some "Token") message (Some token) logout_ tokenLogin
               endpoint query in
  token <> "" ->
  tokenLogin token (store w) = (Rejected e, st) ->
  loginWithToken env (Some token) appCenterManager w =
    (Rejected e, mkWorld st (trace w ++ [DoTokenLogin token]) (unhandled w)) /\
  complete (login appCenterManager) env w =
    (Fulfilled tt,
     mkWorld st
       (trace w ++
          [ShowQuickPick ["Interactive"; "Token"] ACStrings.SelectLoginTypeMsg;
           ShowInputBox ACStrings.PleaseProvideToken true;
           DoTokenLogin token])
       (unhandled w ++ [e])).
Proof.
  intros env Hne Hlogin. apply String.eqb_neq in Hne. split.
  - rewrite loginWithToken_cases. cbn [truthy template]. rewrite Hne.
    cbn [negb]. subst env. cbn [doTokenLogin]. rewrite Hlogin. reflexivity.
  - rewrite login_runs. subst env. cbn [quickPick]. f_equal.
    unfold detach at 1. rewrite login_onQuickPick_Token. cbn [inputBox].
    unfold detach. rewrite loginWithToken_cases. cbn [truthy template].
    rewrite Hne. cbn [negb doTokenLogin]. unfold after.
    cbn [store trace unhandled]. rewrite Hlogin.
    cbn [store trace unhandled]. rewrite <- !app_assoc. reflexivity.
Qed.

(** X9: The last choice wins: saving a second entry after a successful save
    replaces the default app altogether.  The store is then the same as
    if only the second entry had been saved: the profile keeps its
    display name, carries the second app, and equals the profile file. *)
Theorem saveCurrentApp_last_write_wins
    (s1 s2 : string) (d2 : DefaultApp) (p : Profile) (w : World) :
  user (store w) = Some p ->
  fst (saveCurrentApp (Some s1) w) = Fulfilled true ->
  toDefaultApp s2 = Some d2 ->
  let w1 := snd (saveCurrentApp (Some s1) w) in
  let p2 := mkProfile (displayName p) (Some d2) in
  fst (saveCurrentApp (Some s2) w1) = Fulfilled true /\
  store (snd (saveCurrentApp (Some s2) w1)) = mkStore (Some p2) (Some p2) /\
  store (snd (saveCurrentApp (Some s2) w1))
    = store (snd (saveCurrentApp (Some s2) w)).
Proof.
  intros Hu Htrue Hparse w1 p2. subst w1 p2.
  rewrite !saveCurrentApp_cases in *. rewrite Hu in *.
  destruct (toDefaultApp s1) as [d1|]; [|discriminate].
  cbn [snd store user]. rewrite Hparse. repeat split.
Qed.

(** X10: [restoreCurrentApp] rebuilds the app from the owner name and the app
    name alone: the stored identifier, the display name and the profile
    file have no part in what it resolves to. *)
Theorem restoreCurrentApp_reads_names_only
    (w1 w2 : World) (u1 u2 : Profile) :
  user (store w1) = Some u1 ->
  user (store w2) = Some u2 ->
  option_map (fun a => (ownerName a, appName a)) (defaultApp u1)
    = option_map (fun a => (ownerName a, appName a)) (defaultApp u2) ->
  fst (restoreCurrentApp w1) = fst (restoreCurrentApp w2).
Proof.
  intros H1 H2 Hnames. rewrite !restoreCurrentApp_reads. cbn [fst].
  unfold restoredApp, currentAppString. rewrite H1, H2.
  destruct (defaultApp u1) as [a1|], (defaultApp u2) as [a2|];
    try discriminate; [|reflexivity].
  injection Hnames as -> ->. reflexivity.
Qed.

(** What a dropped [loginWithToken] chain leaves behind depends on the
    world only through the profile store: the calls it adds, the store
    and the rejections it leaves are the same from any two worlds with
    the same store, under any two outsides with the same [doTokenLogin]. *)
Lemma detach_loginWithToken_frame
    (env1 env2 : Env) (token : option string)
    (appCenterManager : AppCenterExtensionManager) (w1 w2 : World) :
  doTokenLogin env1 = doTokenLogin env2 ->
  store w1 = store w2 ->
  let r1 := detach (loginWithToken env1 token appCenterManager) w1 in
  let r2 := detach (loginWithToken env2 token appCenterManager) w2 in
  store r1 = store r2 /\
  exists es errs,
    trace r1 = (trace w1 ++ es)%list /\ trace r2 = (trace w2 ++ es)%list /\
    unhandled r1 = (unhandled w1 ++ errs)%list /\
    unhandled r2 = (unhandled w2 ++ errs)%list /\
    filter isProfileSave es = [].
Proof.
  intros Henv Hstore r1 r2. subst r1 r2. unfold detach.
  rewrite !loginWithToken_cases, Henv, Hstore.
  destruct (negb (truthy token)).
  - split; [exact Hstore|]. exists [], []. now rewrite !app_nil_r.
  - cbv zeta.
    destruct (doTokenLogin env2 (template token) (store w2)) as [[[p|]|e] st];
      cbn [store trace unhandled]; (split; [reflexivity|]).
    + eexists _, []. repeat split; rewrite ?app_nil_r; reflexivity.
    + eexists _, []. repeat split; rewrite ?app_nil_r; reflexivity.
    + eexists _, [e]. repeat split.
Qed.

(** X11: The two ways to log in end alike: the Interactive flow answered with
    a string that lower-cases to "ok" and the Token flow, given the same
    token entry and the same Auth, leave the same profile store and the
    same unhandled rejections, and make the same calls after their
    prompts; the Interactive flow only shows the browser message and
    opens the login URL before the token prompt. *)
Theorem login_interactive_ok_ends_as_token_flow
    (appCenterManager : AppCenterExtensionManager)
    (answer : string) (message input : option string)
    (logout_ : ProfileStore -> Settled unit * ProfileStore)
    (tokenLogin : string -> ProfileStore -> Settled (option Profile) * ProfileStore)
    (endpoint query : string) (w : World) :
  toLowerCase answer = "ok" ->
  let viaToken :=
    mkEnv (Some "Token") message input logout_ tokenLogin endpoint query in
  let viaBrowser :=
    mkEnv (Some "Interactive") (Some answer) input logout_ tokenLogin
      endpoint query in
  let wT := snd (complete (login appCenterManager) viaToken w) in
  let wB := snd (complete (login appCenterManager) viaBrowser w) in
  let pick := ShowQuickPick ["Interactive"; "Token"] ACStrings.SelectLoginTypeMsg in
  let ask := ShowInputBox ACStrings.PleaseProvideToken true in
  store wB = store wT /\
  unhandled wB = unhandled wT /\
  exists es,
    trace wT = (trace w ++ [pick; ask] ++ es)%list /\
    trace wB =
      (trace w ++
         [pick;
          ShowInformationMessage ACStrings.PleaseLoginViaBrowser ["OK"];
          OpenUrl (endpoint ++ "?" ++ query);
          ask] ++ es)%list.
Proof.
  intros Hok viaToken viaBrowser wT wB pick ask.
  assert (wT = detach (loginWithToken viaToken input appCenterManager)
                 (after w [pick; ask])) as ->.
  { subst wT. rewrite login_runs. cbn [snd]. subst viaToken. cbn [quickPick].
    unfold detach at 1. rewrite login_onQuickPick_Token. cbn [inputBox].
    unfold after. cbn [store trace unhandled]. rewrite <- app_assoc.
    reflexivity. }
  assert (wB = detach (loginWithToken viaBrowser input appCenterManager)
                 (after w [pick;
                           ShowInformationMessage
                             ACStrings.PleaseLoginViaBrowser ["OK"];
                           OpenUrl (endpoint ++ "?" ++ query);
                           ask])) as ->.
  { subst wB. rewrite login_runs. cbn [snd]. subst viaBrowser. cbn [quickPick].
    unfold detach at 1. rewrite login_onQuickPick_Interactive.
    cbn [informationMessage]. unfold detach at 1.
    rewrite (login_onBrowserMessage_ok _ _ _ _ Hok).
    cbn [loginEndpoint hostnameQuery inputBox].
    unfold after. cbn [store trace unhandled]. rewrite <- !app_assoc.
    reflexivity. }
  destruct (detach_loginWithToken_frame viaBrowser viaToken input
              appCenterManager
              (after w [pick;
                        ShowInformationMessage
                          ACStrings.PleaseLoginViaBrowser ["OK"];
                        OpenUrl (endpoint ++ "?" ++ query);
                        ask])
              (after w [pick; ask]) eq_refl eq_refl)
    as (Hstore & es & errs & Ht1 & Ht2 & Hu1 & Hu2 & _).
  split; [exact Hstore|]. split.
  - rewrite Hu1, Hu2. reflexivity.
  - exists es. rewrite Ht1, Ht2. unfold after. cbn [trace].
    rewrite <- !app_assoc. split; reflexivity.
Qed.

(** [viaTokenLogin] through the steps of a callback. *)
Lemma viaTokenLogin_rejected (env : Env) (w : World) (errs : list JsError) :
  viaTokenLogin env w (mkWorld (store w) (trace w) (unhandled w ++ errs)).
Proof.
  exists []. cbn [trace store]. rewrite app_nil_r.
  split; [reflexivity|]. split; [reflexivity|]. left. split; reflexivity.
Qed.

Lemma viaTokenLogin_same (env : Env) (w : World) : viaTokenLogin env w w.
Proof.
  exists []. rewrite app_nil_r.
  split; [reflexivity|]. split; [reflexivity|]. left. split; reflexivity.
Qed.

Lemma viaTokenLogin_after (env : Env) (w r : World) (es : list Event) :
  filter isProfileSave es = [] ->
  filter isAuthCall es = [] ->
  viaTokenLogin env (after w es) r ->
  viaTokenLogin env w r.
Proof.
  intros Hsave Hauth (es' & Ht & Hs' & Hstore).
  exists (es ++ es')%list. unfold after in Ht, Hstore. cbn [trace store] in *.
  rewrite Ht, app_assoc, !filter_app, Hsave, Hauth, Hs'.
  split; [reflexivity|]. split; [reflexivity|]. exact Hstore.
Qed.

Lemma loginWithToken_viaTokenLogin
    (env : Env) (token : option string)
    (appCenterManager : AppCenterExtensionManager) (w : World) :
  viaTokenLogin env w (detach (loginWithToken env token appCenterManager) w).
Proof.
  unfold detach. rewrite loginWithToken_cases.
  destruct (negb (truthy token)); [apply viaTokenLogin_same|].
  cbv zeta.
  destruct (doTokenLogin env (template token) (store w)) as [[[p|]|e] st] eqn:E;
    eexists; cbn [trace store]; (split; [reflexivity|]);
    (split; [reflexivity|]); right; exists (template token);
    rewrite E; split; reflexivity.
Qed.

Lemma login_onBrowserMessage_viaTokenLogin
    (env : Env) (appCenterManager : AppCenterExtensionManager)
    (selection : option string) (w : World) :
  viaTokenLogin env w
    (detach (login_onBrowserMessage env appCenterManager selection) w).
Proof.
  destruct selection as [answer|].
  - destruct (String.eqb (toLowerCase answer) "ok") eqn:E.
    + apply String.eqb_eq in E. unfold detach at 1.
      rewrite (login_onBrowserMessage_ok _ _ _ _ E).
      eapply viaTokenLogin_after; [| |apply loginWithToken_viaTokenLogin];
        reflexivity.
    + unfold detach, login_onBrowserMessage. rewrite E.
      apply viaTokenLogin_same.
  - apply (viaTokenLogin_rejected env w [TypeError]).
Qed.

Lemma login_onQuickPick_viaTokenLogin
    (env : Env) (appCenterManager : AppCenterExtensionManager)
    (loginType : option string) (w : World) :
  viaTokenLogin env w
    (detach (login_onQuickPick env appCenterManager loginType) w).
Proof.
  destruct (strict_eq loginType (Some "Interactive")) eqn:EI.
  - apply strict_eq_Some in EI. subst loginType. unfold detach at 1.
    rewrite login_onQuickPick_Interactive.
    eapply viaTokenLogin_after;
      [| |apply login_onBrowserMessage_viaTokenLogin]; reflexivity.
  - destruct (strict_eq loginType (Some "Token")) eqn:ET.
    + apply strict_eq_Some in ET. subst loginType. unfold detach at 1.
      rewrite login_onQuickPick_Token.
      eapply viaTokenLogin_after; [| |apply loginWithToken_viaTokenLogin];
        reflexivity.
    + unfold detach, login_onQuickPick.
      destruct appCenterLoginOptions_names as (_ & -> & ->).
      rewrite EI, ET. apply (viaTokenLogin_rejected env w [Error _]).
Qed.

(** X12: Only setCurrentApp writes the profile.  whoAmI, getCurrentApp
    and releaseReact make no call to profile.save() and none to Auth, and
    leave the profile store and the unhandled rejections as they were.
    logout makes no call to profile.save(); it either makes no call to
    Auth and leaves the store as it was, or makes the one call doLogout
    and leaves the store as that call left it.  login makes no call to
    profile.save(); it either makes no call to Auth and leaves the store
    as it was, or makes one call doTokenLogin and leaves the store as
    that call left it. *)
Theorem only_setCurrentApp_saves_profile
    (client : AppCenterClient) (appCenterManager : AppCenterExtensionManager)
    (profile : option Profile) (env : Env) (w : World) :
  Forall
    (fun command : Js Invocation =>
       exists es,
         snd (complete command env w) = after w es /\
         filter isProfileSave es = [] /\
         filter isAuthCall es = [])
    [ whoAmI profile; getCurrentApp; releaseReact client appCenterManager ] /\
  (let w' := snd (complete (logout appCenterManager) env w) in
   exists es,
     trace w' = (trace w ++ es)%list /\
     filter isProfileSave es = [] /\
     ((filter isAuthCall es = [] /\ store w' = store w) \/
      (filter isAuthCall es = [DoLogout] /\
       store w' = snd (doLogout env (store w))))) /\
  (let w' := snd (complete (login appCenterManager) env w) in
   exists es,
     trace w' = (trace w ++ es)%list /\
     filter isProfileSave es = [] /\
     ((filter isAuthCall es = [] /\ store w' = store w) \/
      exists t,
        filter isAuthCall es = [DoTokenLogin t] /\
        store w' = snd (doTokenLogin env t (store w)))).
Proof.
  split; [|split].
  - repeat (apply Forall_cons || apply Forall_nil).
    + unfold complete, whoAmI.
      destruct profile as [p|]; [destruct (truthy (Some (displayName p)))|];
        eexists; repeat split.
    + rewrite getCurrentApp_runs. eexists. repeat split.
    + unfold complete, releaseReact, bind. rewrite restoreCurrentApp_reads.
      cbn [returned pending ret snd fst].
      destruct (restoredApp (store w)); eexists; repeat split.
  - assert (complete (logout appCenterManager) env w =
              (Fulfilled tt,
               detach (logout_onQuickPick env appCenterManager (quickPick env))
                 (after w [ShowQuickPick ["Logout"] ACStrings.LogoutPrompt])))
      as Hrun by reflexivity.
    cbv zeta. rewrite Hrun. cbn [snd].
    unfold logout_onQuickPick, logoutOption, detach, after.
    destruct (strict_eq (quickPick env) (Some "Logout")).
    + unfold catch, bind, emit, auth, ret. cbn [store trace unhandled].
      destruct (doLogout env (store w)) as [[[]|e] st] eqn:Hout;
        cbn [store trace unhandled snd]; rewrite <- !app_assoc;
        eexists; (split; [reflexivity|]); (split; [reflexivity|]);
        right; split; reflexivity.
    + eexists. cbn [trace store]. split; [reflexivity|].
      split; [reflexivity|]. left. split; reflexivity.
  - cbv zeta. rewrite login_runs. cbn [snd].
    apply (viaTokenLogin_after env w _
             [ShowQuickPick ["Interactive"; "Token"] ACStrings.SelectLoginTypeMsg]);
      [reflexivity | reflexivity |].
    apply login_onQuickPick_viaTokenLogin.
Qed.

(** X13: Dismissing the input box of setCurrentApp is not special-cased: the
    callback hands undefined to the parser.  If the parser throws, the
    error is left unhandled and nothing is shown or saved; if it answers
    null, the invalid-name warning is shown; if it answers an app, that
    app is saved for a logged-in user, the message reads "Your current
    app is undefined" and the status bar is given undefined. *)
Theorem setCurrentApp_dismissed_input
    (appCenterManager : AppCenterExtensionManager)
    (pick message : option string)
    (logout_ : ProfileStore -> Settled unit * ProfileStore)
    (tokenLogin : string -> ProfileStore -> Settled (option Profile) * ProfileStore)
    (endpoint query : string) (w : World) :
  let env := mkEnv pick message None logout_ tokenLogin endpoint query in
  let prompt := ShowInputBox ACStrings.ProvideCurrentAppPromptMsg true in
  complete (setCurrentApp appCenterManager) env w =
    (Fulfilled tt,
     match toDefaultApp_undefined with
     | Rejected e =>
         mkWorld (store w) (trace w ++ [prompt]) (unhandled w ++ [e])
     | Fulfilled None =>
         after w [prompt;
                  ShowWarningMessage ACStrings.InvalidCurrentAppNameMsg]
     | Fulfilled (Some d) =>
         match user (store w) with
         | Some p =>
             let p' := mkProfile (displayName p) (Some d) in
             mkWorld (mkStore (Some p') (Some p'))
               (trace w ++
                  [prompt; ProfileSave p';
                   ShowInformationMessage "Your current app is undefined" [];
                   SetCurrentAppStatusBar None])
               (unhandled w)
         | None =>
             after w [prompt;
                      ShowWarningMessage ACStrings.UserIsNotLoggedInMsg]
         end
     end).
Proof.
  intros env prompt. rewrite setCurrentApp_starts. subst env.
  cbn [inputBox]. f_equal. fold prompt. unfold detach.
  rewrite setCurrentApp_onInput_cases. run_js.
  destruct toDefaultApp_undefined as [[d|]|e]; simpl;
    [destruct (user (store w)) as [p|] eqn:Hu; simpl; rewrite ?Hu; simpl| |];
    rewrite <- ?app_assoc; reflexivity.
Qed.

End Executor.

Arguments mkWorld {AppCenterClient} store trace unhandled.
Arguments complete {AppCenterClient} command env w.
Arguments store {AppCenterClient} w.
Arguments trace {AppCenterClient} w.
Arguments unhandled {AppCenterClient} w.
Arguments ShowQuickPick {AppCenterClient} items placeHolder.
Arguments ShowInformationMessage {AppCenterClient} message items.
Arguments ShowWarningMessage {AppCenterClient} message.
Arguments ShowInputBox {AppCenterClient} prompt ignoreFocusOut.
Arguments OpenUrl {AppCenterClient} url.
Arguments DoTokenLogin {AppCenterClient} token.
Arguments DoLogout {AppCenterClient}.
Arguments SetupNotAuthenticatedStatusBar {AppCenterClient}.
Arguments SetuAuthenticatedStatusBar {AppCenterClient} name.
Arguments SetCurrentAppStatusBar {AppCenterClient} appName.
Arguments Log {AppCenterClient} message level.
Arguments ProfileSave {AppCenterClient} profile.
Arguments CodePushReleaseReactExec {AppCenterClient} client params.

(** ** The mapper of ListOKResponseItem *)

(** C5: mapper() returns the same descriptor on every call: a Composite
    type named "ListOKResponseItem", not required, with exactly the three
    model properties displayName, name and origin, each an optional
    String, serialized as "display_name", "name" and "origin". *)
Theorem C5_mapper_is_fixed_descriptor (self other : ListOKResponseItem.t) :
  let m := ListOKResponseItem.mapper self in
  let props := ListOKResponseItem.modelProperties (ListOKResponseItem.type m) in
  ListOKResponseItem.mapper other = m /\
  ListOKResponseItem.required m = false /\
  ListOKResponseItem.serializedName m = "ListOKResponseItem" /\
  ListOKResponseItem.typeName (ListOKResponseItem.type m) = "Composite" /\
  ListOKResponseItem.className (ListOKResponseItem.type m)
    = Some "ListOKResponseItem" /\
  map fst props = ["displayName"; "name"; "origin"] /\
  forallb (fun kv => ListOKResponseItem.optionalString (snd kv)) props = true /\
  option_map ListOKResponseItem.serializedName
    (ListOKResponseItem.property "displayName" props) = Some "display_name" /\
  option_map ListOKResponseItem.serializedName
    (ListOKResponseItem.property "name" props) = Some "name" /\
  option_map ListOKResponseItem.serializedName
    (ListOKResponseItem.property "origin" props) = Some "origin".
Proof.
  destruct self, other. cbv zeta. repeat split.
Qed.

(** ** Runs of the executor

    The executor with [splitOwnerApp] as parser, a client that carries no
    data, and a parser that answers null on undefined. *)

Abbreviation world0 := (mkWorld (AppCenterClient := unit)).
Abbreviation Save := (saveCurrentApp unit splitOwnerApp (Fulfilled None)).
Abbreviation Restore := (restoreCurrentApp unit splitOwnerApp).

Example toLowerCase_OK :
  map toLowerCase ["OK"; "Ok"; "oK"; "ok"; "Cancel"]
    = ["ok"; "ok"; "ok"; "ok"; "cancel"].
Proof. reflexivity. Qed.

Example splitOwnerApp_runs :
  map splitOwnerApp ["contoso/shop"; "contoso"; "/shop"; "a/b/c"; ""]
    = [Some (mkDefaultApp "contoso" "shop" "contoso/shop");
       None; None; None; None].
Proof. reflexivity. Qed.

(** Saving "contoso/shop" for Alice, then restoring. *)
Example save_then_restore_runs :
  let w := world0 (mkStore (Some alice) None) [] [] in
  Save (Some "contoso/shop") w =
    (Fulfilled true,
     let p := mkProfile "Alice" (Some (mkDefaultApp "contoso" "shop" "contoso/shop")) in
     world0 (mkStore (Some p) (Some p)) [ProfileSave p] []) /\
  fst (Restore (snd (Save (Some "contoso/shop") w)))
    = Fulfilled (Some (mkDefaultApp "contoso" "shop" "contoso/shop")).
Proof. split; reflexivity. Qed.


(** Witness of C9: an entry without a slash is refused and Alice's
    profile stays as it was. *)
Lemma C9_saveCurrentApp_failure_leaves_profile_witness :
  let w := world0 (mkStore (Some alice) (Some alice)) [] [] in
  fst (Save (Some "contoso") w) = Fulfilled false /\
  store (snd (Save (Some "contoso") w)) = mkStore (Some alice) (Some alice).
Proof.
  split; [reflexivity|].
  apply (C9_saveCurrentApp_failure_leaves_profile unit splitOwnerApp
           (Fulfilled None) (Some "contoso")
           (world0 (mkStore (Some alice) (Some alice)) [] [])).
  reflexivity.
Defined.

Abbreviation office := (mkManager "/home/alice/shop").

(** Witness of C3: a selection that is neither login type is refused,
    and the button "OK" of the browser message opens the login URL and
    asks for the token. *)
Lemma C3_login_branches_on_selection_witness :
  login_onQuickPick unit splitOwnerApp
      (answers (Some "Interactive") (Some "OK") (Some "t0k3n"))
      office (Some "Browser") (world0 (mkStore None None) [] []) =
    (Rejected (Error "Unsupported login parameter!"),
     world0 (mkStore None None) [] []) /\
  login_onBrowserMessage unit splitOwnerApp
      (answers (Some "Interactive") (Some "OK") (Some "t0k3n"))
      office (Some "OK") (world0 (mkStore None None) [] []) =
    (Fulfilled tt,
     world0 (mkStore None None)
       [OpenUrl "https://appcenter.ms/cli-login?hostname=devbox";
        ShowInputBox ACStrings.PleaseProvideToken true;
        DoTokenLogin "t0k3n";
        Log "Failed to fetch user info from server" LogLevel.Error;
        ShowWarningMessage ACStrings.FailedToExecuteLoginMsg]
       []).
Proof.
  destruct (C3_login_branches_on_selection unit splitOwnerApp office
              (answers (Some "Interactive") (Some "OK") (Some "t0k3n"))
              (world0 (mkStore None None) [] []))
    as (_ & _ & _ & Hok & _ & _ & _ & Hother & _).
  split.
  - apply Hother; discriminate.
  - rewrite (Hok "OK"); [reflexivity|].
    simpl. auto.
Defined.

(** Witness of C6: "Logout" chosen with Auth logging out, "Logout"
    chosen with the network down, and the picklist dismissed. *)
Lemma C6_logout_branches_on_selection_witness :
  complete (logout unit office) (answers (Some "Logout") None None)
      (world0 (mkStore (Some alice) (Some alice)) [] []) =
    (Fulfilled tt,
     world0 (mkStore None None)
       [ShowQuickPick ["Logout"] ACStrings.LogoutPrompt;
        DoLogout;
        ShowInformationMessage ACStrings.UserLoggedOutMsg [];
        SetupNotAuthenticatedStatusBar]
       []) /\
  complete (logout unit office) (offline (Some "Logout") None None)
      (world0 (mkStore (Some alice) (Some alice)) [] []) =
    (Fulfilled tt,
     world0 (mkStore (Some alice) (Some alice))
       [ShowQuickPick ["Logout"] ACStrings.LogoutPrompt;
        DoLogout;
        Log "An errro occured on logout" LogLevel.Error]
       []) /\
  complete (logout unit office) (answers None None None)
      (world0 (mkStore (Some alice) (Some alice)) [] []) =
    (Fulfilled tt,
     world0 (mkStore (Some alice) (Some alice))
       [ShowQuickPick ["Logout"] ACStrings.LogoutPrompt]
       []).
Proof.
  split; [|split].
  - apply (proj1 (C6_logout_branches_on_selection unit office
                    (answers (Some "Logout") None None)
                    (world0 (mkStore (Some alice) (Some alice)) [] []))
             (mkStore None None)); reflexivity.
  - apply (proj1 (proj2 (C6_logout_branches_on_selection unit office
                           (offline (Some "Logout") None None)
                           (world0 (mkStore (Some alice) (Some alice)) [] [])))
             (Error "ENOTFOUND") (mkStore (Some alice) (Some alice)));
      reflexivity.
  - apply (proj2 (proj2 (C6_logout_branches_on_selection unit office
                           (answers None None None)
                           (world0 (mkStore (Some alice) (Some alice)) [] [])))).
    discriminate.
Defined.

(** Witness of C8: the token "t0k3n" is not accepted; the failure is
    logged and the warning shown. *)
Lemma C8_loginWithToken_missing_token_and_no_profile_witness :
  loginWithToken unit splitOwnerApp (answers None None None) (Some "t0k3n")
      office (world0 (mkStore None None) [] []) =
    (Fulfilled tt,
     world0 (mkStore None None)
       [DoTokenLogin "t0k3n";
        Log "Failed to fetch user info from server" LogLevel.Error;
        ShowWarningMessage ACStrings.FailedToExecuteLoginMsg] []).
Proof.
  destruct (C8_loginWithToken_missing_token_and_no_profile unit splitOwnerApp
              (answers None None None) office
              (world0 (mkStore None None) [] []))
    as (_ & _ & Hnone).
  apply (Hnone "t0k3n" (mkStore None None)); [discriminate | reflexivity].
Defined.

(** The interactive login with the browser message dismissed: the
    command's promise is fulfilled, the handler's TypeError is left
    unhandled, and neither browser nor token prompt appears. *)
Example login_interactive_dismissed_runs :
  complete (login unit splitOwnerApp office)
      (answers (Some "Interactive") None None)
      (world0 (mkStore None None) [] []) =
    (Fulfilled tt,
     world0 (mkStore None None)
       [ShowQuickPick ["Interactive"; "Token"] ACStrings.SelectLoginTypeMsg;
        ShowInformationMessage ACStrings.PleaseLoginViaBrowser ["OK"]]
       [TypeError]).
Proof. reflexivity. Qed.

(** The interactive login answered "OK" with a token that is refused. *)
Example login_interactive_ok_runs :
  complete (login unit splitOwnerApp office)
      (answers (Some "Interactive") (Some "OK") (Some "t0k3n"))
      (world0 (mkStore None None) [] []) =
    (Fulfilled tt,
     world0 (mkStore None None)
       [ShowQuickPick ["Interactive"; "Token"] ACStrings.SelectLoginTypeMsg;
        ShowInformationMessage ACStrings.PleaseLoginViaBrowser ["OK"];
        OpenUrl "https://appcenter.ms/cli-login?hostname=devbox";
        ShowInputBox ACStrings.PleaseProvideToken true;
        DoTokenLogin "t0k3n";
        Log "Failed to fetch user info from server" LogLevel.Error;
        ShowWarningMessage ACStrings.FailedToExecuteLoginMsg]
       []).
Proof. reflexivity. Qed.

(** The login quick-pick dismissed: the error is raised in the callback,
    so it rejects the dropped chain and not the returned promise. *)
Example login_dismissed_runs :
  complete (login unit splitOwnerApp office) (answers None None None)
      (world0 (mkStore None None) [] []) =
    (Fulfilled tt,
     world0 (mkStore None None)
       [ShowQuickPick ["Interactive"; "Token"] ACStrings.SelectLoginTypeMsg]
       [Error "Unsupported login parameter!"]).
Proof. reflexivity. Qed.

Example logout_runs :
  complete (logout unit office) (answers (Some "Logout") None None)
      (world0 (mkStore (Some alice) (Some alice)) [] []) =
    (Fulfilled tt,
     world0 (mkStore None None)
       [ShowQuickPick ["Logout"] ACStrings.LogoutPrompt;
        DoLogout;
        ShowInformationMessage ACStrings.UserLoggedOutMsg [];
        SetupNotAuthenticatedStatusBar]
       []).
Proof. reflexivity. Qed.

Example releaseReact_runs :
  let p := mkProfile "Alice" (Some (mkDefaultApp "contoso" "shop" "contoso/shop")) in
  complete (releaseReact unit splitOwnerApp tt office) (answers None None None)
      (world0 (mkStore (Some p) (Some p)) [] []) =
    (Fulfilled tt,
     world0 (mkStore (Some p) (Some p))
       [CodePushReleaseReactExec tt
          (mkReleaseParams (mkDefaultApp "contoso" "shop" "contoso/shop")
             "Staging" "/home/alice/shop" (Some "1.0.0")
             None None None None None None)]
       []).
Proof. reflexivity. Qed.

(** *** The round trip with the modelled parser *)








(** ** Runs for the further properties *)

Arguments after {AppCenterClient} w es.

Abbreviation shop := (mkDefaultApp "contoso" "shop" "contoso/shop").
Abbreviation carol := (mkProfile "Carol" (Some shop)).
Abbreviation loggedOut := (world0 (mkStore None None) [] []).
Abbreviation aliceIn := (world0 (mkStore (Some alice) None) [] []).

(** Witness of X3. *)
Lemma getCurrentApp_after_save_witness :
  complete (getCurrentApp unit splitOwnerApp) (answers None None None)
      (snd (Save (Some "contoso/shop") aliceIn)) =
    (Fulfilled tt,
     after (snd (Save (Some "contoso/shop") aliceIn))
       [ShowInformationMessage "Your current app is contoso/shop" []]).
Proof.
  apply (getCurrentApp_after_save unit splitOwnerApp (Fulfilled None)
           "contoso/shop" shop (answers None None None) aliceIn);
    reflexivity.
Defined.

(** Witness of X4. *)
Lemma releaseReact_after_save_witness :
  complete (releaseReact unit splitOwnerApp tt office) (answers None None None)
      (snd (Save (Some "contoso/shop") aliceIn)) =
    (Fulfilled tt,
     after (snd (Save (Some "contoso/shop") aliceIn))
       [CodePushReleaseReactExec tt
          (mkReleaseParams shop "Staging" "/home/alice/shop" (Some "1.0.0")
             None None None None None None)]).
Proof.
  apply (releaseReact_after_save unit splitOwnerApp (Fulfilled None) tt office
           "contoso/shop" shop (answers None None None) aliceIn);
    reflexivity.
Defined.

(** Witness of X5. *)
Lemma logged_out_has_no_current_app_witness :
  complete (getCurrentApp unit splitOwnerApp) (answers None None None) loggedOut =
    (Fulfilled tt,
     after loggedOut [ShowInformationMessage ACStrings.NoCurrentAppSetMsg []]) /\
  complete (releaseReact unit splitOwnerApp tt office) (answers None None None)
      loggedOut =
    (Fulfilled tt,
     after loggedOut [ShowWarningMessage ACStrings.NoCurrentAppSetMsg]) /\
  forall s : string,
    fst (Save (Some s) loggedOut) = Fulfilled false /\
    store (snd (Save (Some s) loggedOut)) = store loggedOut.
Proof.
  apply (logged_out_has_no_current_app unit splitOwnerApp (Fulfilled None)
           tt office (answers None None None) loggedOut).
  reflexivity.
Defined.

(** Witness of X6. *)
Lemma loginWithToken_success_witness :
  loginWithToken unit splitOwnerApp (signsIn carol None None None)
      (Some "t0k3n") office loggedOut =
    (Fulfilled tt,
     world0 (mkStore (Some carol) (Some carol))
       [DoTokenLogin "t0k3n";
        ShowInformationMessage "You are logged in to App Center as Carol" [];
        SetuAuthenticatedStatusBar "Carol";
        SetCurrentAppStatusBar (Some "contoso/shop")]
       []).
Proof.
  apply (loginWithToken_success unit splitOwnerApp
           (signsIn carol None None None) office "t0k3n" carol
           (mkStore (Some carol) (Some carol)) loggedOut);
    [discriminate | reflexivity].
Defined.

(** Witness of X7. *)
Lemma getCurrentApp_after_login_witness :
  exists shown,
    last (trace (snd (loginWithToken unit splitOwnerApp
                        (signsIn carol None None None) (Some "t0k3n") office
                        loggedOut))) DoLogout
      = SetCurrentAppStatusBar shown /\
    complete (getCurrentApp unit splitOwnerApp) (answers None None None)
        (snd (loginWithToken unit splitOwnerApp
                (signsIn carol None None None) (Some "t0k3n") office loggedOut)) =
      (Fulfilled tt,
       after (snd (loginWithToken unit splitOwnerApp
                     (signsIn carol None None None) (Some "t0k3n") office
                     loggedOut))
         [ShowInformationMessage
            match shown with
            | Some name => ACStrings.YourCurrentAppMsg name
            | None => ACStrings.NoCurrentAppSetMsg
            end []]).
Proof.
  apply (getCurrentApp_after_login unit splitOwnerApp
           (signsIn carol None None None) (answers None None None) office
           "t0k3n" carol (mkStore (Some carol) (Some carol)) loggedOut);
    [discriminate | reflexivity].
Defined.

(** Witness of X8. *)
Lemma loginWithToken_rejection_is_silent_witness :
  complete (login unit splitOwnerApp office)
      (offline (Some "Token") None (Some "t0k3n")) loggedOut =
    (Fulfilled tt,
     world0 (mkStore None None)
       [ShowQuickPick ["Interactive"; "Token"] ACStrings.SelectLoginTypeMsg;
        ShowInputBox ACStrings.PleaseProvideToken true;
        DoTokenLogin "t0k3n"]
       [Error "ENOTFOUND"]).
Proof.
  apply (loginWithToken_rejection_is_silent unit splitOwnerApp office None
           "t0k3n"
           (fun st => (Rejected (Error "ENOTFOUND"), st))
           (fun _ st => (Rejected (Error "ENOTFOUND"), st))
           "https://appcenter.ms/cli-login" "hostname=devbox"
           (Error "ENOTFOUND") (mkStore None None) loggedOut);
    [discriminate | reflexivity].
Defined.

(** Witness of X9. *)
Lemma saveCurrentApp_last_write_wins_witness :
  fst (Save (Some "fabrikam/blog") (snd (Save (Some "contoso/shop") aliceIn)))
    = Fulfilled true /\
  store (snd (Save (Some "fabrikam/blog")
                (snd (Save (Some "contoso/shop") aliceIn)))) =
    (let p2 := mkProfile "Alice"
                 (Some (mkDefaultApp "fabrikam" "blog" "fabrikam/blog")) in
     mkStore (Some p2) (Some p2)) /\
  store (snd (Save (Some "fabrikam/blog")
                (snd (Save (Some "contoso/shop") aliceIn))))
    = store (snd (Save (Some "fabrikam/blog") aliceIn)).
Proof.
  apply (saveCurrentApp_last_write_wins unit splitOwnerApp (Fulfilled None)
           "contoso/shop" "fabrikam/blog"
           (mkDefaultApp "fabrikam" "blog" "fabrikam/blog") alice aliceIn);
    reflexivity.
Defined.

(** Witness of X10. *)
Lemma restoreCurrentApp_reads_names_only_witness :
  fst (Restore (world0 (mkStore (Some carol) None) [] []))
    = fst (Restore
             (world0
                (mkStore
                   (Some (mkProfile "Dave"
                            (Some (mkDefaultApp "contoso" "shop" "stale"))))
                   (Some alice))
                [DoLogout] [TypeError])).
Proof.
  apply (restoreCurrentApp_reads_names_only unit splitOwnerApp
           (world0 (mkStore (Some carol) None) [] [])
           (world0
              (mkStore
                 (Some (mkProfile "Dave"
                          (Some (mkDefaultApp "contoso" "shop" "stale"))))
                 (Some alice))
              [DoLogout] [TypeError])
           carol
           (mkProfile "Dave" (Some (mkDefaultApp "contoso" "shop" "stale"))));
    reflexivity.
Defined.

(** Witness of X11. *)
Lemma login_interactive_ok_ends_as_token_flow_witness :
  store (snd (complete (login unit splitOwnerApp office)
                (signsIn carol (Some "Interactive") (Some "OK") (Some "t0k3n"))
                loggedOut))
    = store (snd (complete (login unit splitOwnerApp office)
                    (signsIn carol (Some "Token") None (Some "t0k3n"))
                    loggedOut)).
Proof.
  apply (login_interactive_ok_ends_as_token_flow unit splitOwnerApp office
           "OK" None (Some "t0k3n")
           (fun _ => (Fulfilled tt, mkStore None None))
           (fun _ _ => (Fulfilled (Some carol), mkStore (Some carol) (Some carol)))
           "https://appcenter.ms/cli-login" "hostname=devbox" loggedOut).
  reflexivity.
Defined.

(** The Interactive flow answered "OK", with a token Auth accepts. *)
Example login_interactive_accepted_runs :
  complete (login unit splitOwnerApp office)
      (signsIn carol (Some "Interactive") (Some "OK") (Some "t0k3n"))
      loggedOut =
    (Fulfilled tt,
     world0 (mkStore (Some carol) (Some carol))
       [ShowQuickPick ["Interactive"; "Token"] ACStrings.SelectLoginTypeMsg;
        ShowInformationMessage ACStrings.PleaseLoginViaBrowser ["OK"];
        OpenUrl "https://appcenter.ms/cli-login?hostname=devbox";
        ShowInputBox ACStrings.PleaseProvideToken true;
        DoTokenLogin "t0k3n";
        ShowInformationMessage "You are logged in to App Center as Carol" [];
        SetuAuthenticatedStatusBar "Carol";
        SetCurrentAppStatusBar (Some "contoso/shop")]
       []).
Proof. reflexivity. Qed.

(** The Kelvin sign is lower-cased to k, as in JavaScript; other
    characters outside ASCII stay as they are. *)
Example toLowerCase_kelvin :
  toLowerCase ("O" ++ kelvinSign) = "ok" /\
  toLowerCase (kelvinSign ++ "elvin") = "kelvin" /\
  toLowerCase (String "226" (String "132" (String "171" "x"))) =
    String "226" (String "132" (String "171" "x")).
Proof. repeat split. Qed.
